(** * Baudot-Murray (ITA2) codec and leftpad: a shallow embedding

    The development follows [ita2.py] and [leftpad.py].  Python values are
    modelled as the interpreter has them: a [str] is a sequence of Unicode
    code points, a [dict] keeps its items in insertion order, a failing
    subscript raises, and [print] appends to the standard output. *)

From Stdlib Require Import List String Ascii NArith ZArith Bool Lia.
From Stdlib Require Import DecimalString DecimalPos.
Import ListNotations.

Open Scope string_scope.
Open Scope list_scope.

(** ** Python values *)

(** A character is a Unicode code point, a [str] a list of them. *)
Abbreviation char := N.
Abbreviation str := (list char).

(** Reads an ASCII literal of this file as a Python [str]. *)
Definition py (s : string) : str :=
  map N_of_ascii (list_ascii_of_string s).

Definition str_eqb (a b : str) : bool :=
  if list_eq_dec N.eq_dec a b then true else false.

(** Exceptions raised by the modelled code. *)
Inductive exn := KeyError | IndexError | TypeError.

Inductive result (A : Type) :=
| Ok (a : A)
| Raise (e : exn).
Arguments Ok {A} a.
Arguments Raise {A} e.

Definition bind {A B} (r : result A) (k : A -> result B) : result B :=
  match r with
  | Ok a => k a
  | Raise e => Raise e
  end.

Notation "x <- r ;; k" := (bind r (fun x => k))
  (at level 61, r at next level, right associativity).

(** A [dict] with [str] keys, as the list of its items in insertion order. *)
Definition dict (V : Type) := list (str * V).

(** [d[k]]: the value stored under [k], [KeyError] when there is none. *)
Fixpoint dict_get {V} (d : dict V) (k : str) : result V :=
  match d with
  | [] => Raise KeyError
  | (key, val) :: rest => if str_eqb key k then Ok val else dict_get rest k
  end.

Definition keys {V} (d : dict V) : list str := map fst d.
Definition values {V} (d : dict V) : list V := map snd d.

(** [value in d.values()] *)
Definition in_values (value : str) (d : dict str) : bool :=
  existsb (str_eqb value) (values d).

(** ** [str.upper]

    [str.upper] maps every code point through the Unicode uppercase mapping
    and concatenates the images; the mapping has no context rules.  The two
    tables are those of Unicode 14.0 (CPython 3.11): code points with a
    one-character image, and code points whose image has several. *)

Definition unicode_simple_upper : list (char * char) := [
  (97,65); (98,66); (99,67); (100,68); (101,69); (102,70); (103,71); (104,72);
  (105,73); (106,74); (107,75); (108,76); (109,77); (110,78); (111,79);
  (112,80); (113,81); (114,82); (115,83); (116,84); (117,85); (118,86);
  (119,87); (120,88); (121,89); (122,90); (181,924); (224,192); (225,193);
  (226,194); (227,195); (228,196); (229,197); (230,198); (231,199); (232,200);
  (233,201); (234,202); (235,203); (236,204); (237,205); (238,206); (239,207);
  (240,208); (241,209); (242,210); (243,211); (244,212); (245,213); (246,214);
  (248,216); (249,217); (250,218); (251,219); (252,220); (253,221); (254,222);
  (255,376); (257,256); (259,258); (261,260); (263,262); (265,264); (267,266);
  (269,268); (271,270); (273,272); (275,274); (277,276); (279,278); (281,280);
  (283,282); (285,284); (287,286); (289,288); (291,290); (293,292); (295,294);
  (297,296); (299,298); (301,300); (303,302); (305,73); (307,306); (309,308);
  (311,310); (314,313); (316,315); (318,317); (320,319); (322,321); (324,323);
  (326,325); (328,327); (331,330); (333,332); (335,334); (337,336); (339,338);
  (341,340); (343,342); (345,344); (347,346); (349,348); (351,350); (353,352);
  (355,354); (357,356); (359,358); (361,360); (363,362); (365,364); (367,366);
  (369,368); (371,370); (373,372); (375,374); (378,377); (380,379); (382,381);
  (383,83); (384,579); (387,386); (389,388); (392,391); (396,395); (402,401);
  (405,502); (409,408); (410,573); (414,544); (417,416); (419,418); (421,420);
  (424,423); (429,428); (432,431); (436,435); (438,437); (441,440); (445,444);
  (447,503); (453,452); (454,452); (456,455); (457,455); (459,458); (460,458);
  (462,461); (464,463); (466,465); (468,467); (470,469); (472,471); (474,473);
  (476,475); (477,398); (479,478); (481,480); (483,482); (485,484); (487,486);
  (489,488); (491,490); (493,492); (495,494); (498,497); (499,497); (501,500);
  (505,504); (507,506); (509,508); (511,510); (513,512); (515,514); (517,516);
  (519,518); (521,520); (523,522); (525,524); (527,526); (529,528); (531,530);
  (533,532); (535,534); (537,536); (539,538); (541,540); (543,542); (547,546);
  (549,548); (551,550); (553,552); (555,554); (557,556); (559,558); (561,560);
  (563,562); (572,571); (575,11390); (576,11391); (578,577); (583,582);
  (585,584); (587,586); (589,588); (591,590); (592,11375); (593,11373);
  (594,11376); (595,385); (596,390); (598,393); (599,394); (601,399);
  (603,400); (604,42923); (608,403); (609,42924); (611,404); (613,42893);
  (614,42922); (616,407); (617,406); (618,42926); (619,11362); (620,42925);
  (623,412); (625,11374); (626,413); (629,415); (637,11364); (640,422);
  (642,42949); (643,425); (647,42929); (648,430); (649,580); (650,433);
  (651,434); (652,581); (658,439); (669,42930); (670,42928); (837,921);
  (881,880); (883,882); (887,886); (891,1021); (892,1022); (893,1023);
  (940,902); (941,904); (942,905); (943,906); (945,913); (946,914); (947,915);
  (948,916); (949,917); (950,918); (951,919); (952,920); (953,921); (954,922);
  (955,923); (956,924); (957,925); (958,926); (959,927); (960,928); (961,929);
  (962,931); (963,931); (964,932); (965,933); (966,934); (967,935); (968,936);
  (969,937); (970,938); (971,939); (972,908); (973,910); (974,911); (976,914);
  (977,920); (981,934); (982,928); (983,975); (985,984); (987,986); (989,988);
  (991,990); (993,992); (995,994); (997,996); (999,998); (1001,1000);
  (1003,1002); (1005,1004); (1007,1006); (1008,922); (1009,929); (1010,1017);
  (1011,895); (1013,917); (1016,1015); (1019,1018); (1072,1040); (1073,1041);
  (1074,1042); (1075,1043); (1076,1044); (1077,1045); (1078,1046);
  (1079,1047); (1080,1048); (1081,1049); (1082,1050); (1083,1051);
  (1084,1052); (1085,1053); (1086,1054); (1087,1055); (1088,1056);
  (1089,1057); (1090,1058); (1091,1059); (1092,1060); (1093,1061);
  (1094,1062); (1095,1063); (1096,1064); (1097,1065); (1098,1066);
  (1099,1067); (1100,1068); (1101,1069); (1102,1070); (1103,1071);
  (1104,1024); (1105,1025); (1106,1026); (1107,1027); (1108,1028);
  (1109,1029); (1110,1030); (1111,1031); (1112,1032); (1113,1033);
  (1114,1034); (1115,1035); (1116,1036); (1117,1037); (1118,1038);
  (1119,1039); (1121,1120); (1123,1122); (1125,1124); (1127,1126);
  (1129,1128); (1131,1130); (1133,1132); (1135,1134); (1137,1136);
  (1139,1138); (1141,1140); (1143,1142); (1145,1144); (1147,1146);
  (1149,1148); (1151,1150); (1153,1152); (1163,1162); (1165,1164);
  (1167,1166); (1169,1168); (1171,1170); (1173,1172); (1175,1174);
  (1177,1176); (1179,1178); (1181,1180); (1183,1182); (1185,1184);
  (1187,1186); (1189,1188); (1191,1190); (1193,1192); (1195,1194);
  (1197,1196); (1199,1198); (1201,1200); (1203,1202); (1205,1204);
  (1207,1206); (1209,1208); (1211,1210); (1213,1212); (1215,1214);
  (1218,1217); (1220,1219); (1222,1221); (1224,1223); (1226,1225);
  (1228,1227); (1230,1229); (1231,1216); (1233,1232); (1235,1234);
  (1237,1236); (1239,1238); (1241,1240); (1243,1242); (1245,1244);
  (1247,1246); (1249,1248); (1251,1250); (1253,1252); (1255,1254);
  (1257,1256); (1259,1258); (1261,1260); (1263,1262); (1265,1264);
  (1267,1266); (1269,1268); (1271,1270); (1273,1272); (1275,1274);
  (1277,1276); (1279,1278); (1281,1280); (1283,1282); (1285,1284);
  (1287,1286); (1289,1288); (1291,1290); (1293,1292); (1295,1294);
  (1297,1296); (1299,1298); (1301,1300); (1303,1302); (1305,1304);
  (1307,1306); (1309,1308); (1311,1310); (1313,1312); (1315,1314);
  (1317,1316); (1319,1318); (1321,1320); (1323,1322); (1325,1324);
  (1327,1326); (1377,1329); (1378,1330); (1379,1331); (1380,1332);
  (1381,1333); (1382,1334); (1383,1335); (1384,1336); (1385,1337);
  (1386,1338); (1387,1339); (1388,1340); (1389,1341); (1390,1342);
  (1391,1343); (1392,1344); (1393,1345); (1394,1346); (1395,1347);
  (1396,1348); (1397,1349); (1398,1350); (1399,1351); (1400,1352);
  (1401,1353); (1402,1354); (1403,1355); (1404,1356); (1405,1357);
  (1406,1358); (1407,1359); (1408,1360); (1409,1361); (1410,1362);
  (1411,1363); (1412,1364); (1413,1365); (1414,1366); (4304,7312);
  (4305,7313); (4306,7314); (4307,7315); (4308,7316); (4309,7317);
  (4310,7318); (4311,7319); (4312,7320); (4313,7321); (4314,7322);
  (4315,7323); (4316,7324); (4317,7325); (4318,7326); (4319,7327);
  (4320,7328); (4321,7329); (4322,7330); (4323,7331); (4324,7332);
  (4325,7333); (4326,7334); (4327,7335); (4328,7336); (4329,7337);
  (4330,7338); (4331,7339); (4332,7340); (4333,7341); (4334,7342);
  (4335,7343); (4336,7344); (4337,7345); (4338,7346); (4339,7347);
  (4340,7348); (4341,7349); (4342,7350); (4343,7351); (4344,7352);
  (4345,7353); (4346,7354); (4349,7357); (4350,7358); (4351,7359);
  (5112,5104); (5113,5105); (5114,5106); (5115,5107); (5116,5108);
  (5117,5109); (7296,1042); (7297,1044); (7298,1054); (7299,1057);
  (7300,1058); (7301,1058); (7302,1066); (7303,1122); (7304,42570);
  (7545,42877); (7549,11363); (7566,42950); (7681,7680); (7683,7682);
  (7685,7684); (7687,7686); (7689,7688); (7691,7690); (7693,7692);
  (7695,7694); (7697,7696); (7699,7698); (7701,7700); (7703,7702);
  (7705,7704); (7707,7706); (7709,7708); (7711,7710); (7713,7712);
  (7715,7714); (7717,7716); (7719,7718); (7721,7720); (7723,7722);
  (7725,7724); (7727,7726); (7729,7728); (7731,7730); (7733,7732);
  (7735,7734); (7737,7736); (7739,7738); (7741,7740); (7743,7742);
  (7745,7744); (7747,7746); (7749,7748); (7751,7750); (7753,7752);
  (7755,7754); (7757,7756); (7759,7758); (7761,7760); (7763,7762);
  (7765,7764); (7767,7766); (7769,7768); (7771,7770); (7773,7772);
  (7775,7774); (7777,7776); (7779,7778); (7781,7780); (7783,7782);
  (7785,7784); (7787,7786); (7789,7788); (7791,7790); (7793,7792);
  (7795,7794); (7797,7796); (7799,7798); (7801,7800); (7803,7802);
  (7805,7804); (7807,7806); (7809,7808); (7811,7810); (7813,7812);
  (7815,7814); (7817,7816); (7819,7818); (7821,7820); (7823,7822);
  (7825,7824); (7827,7826); (7829,7828); (7835,7776); (7841,7840);
  (7843,7842); (7845,7844); (7847,7846); (7849,7848); (7851,7850);
  (7853,7852); (7855,7854); (7857,7856); (7859,7858); (7861,7860);
  (7863,7862); (7865,7864); (7867,7866); (7869,7868); (7871,7870);
  (7873,7872); (7875,7874); (7877,7876); (7879,7878); (7881,7880);
  (7883,7882); (7885,7884); (7887,7886); (7889,7888); (7891,7890);
  (7893,7892); (7895,7894); (7897,7896); (7899,7898); (7901,7900);
  (7903,7902); (7905,7904); (7907,7906); (7909,7908); (7911,7910);
  (7913,7912); (7915,7914); (7917,7916); (7919,7918); (7921,7920);
  (7923,7922); (7925,7924); (7927,7926); (7929,7928); (7931,7930);
  (7933,7932); (7935,7934); (7936,7944); (7937,7945); (7938,7946);
  (7939,7947); (7940,7948); (7941,7949); (7942,7950); (7943,7951);
  (7952,7960); (7953,7961); (7954,7962); (7955,7963); (7956,7964);
  (7957,7965); (7968,7976); (7969,7977); (7970,7978); (7971,7979);
  (7972,7980); (7973,7981); (7974,7982); (7975,7983); (7984,7992);
  (7985,7993); (7986,7994); (7987,7995); (7988,7996); (7989,7997);
  (7990,7998); (7991,7999); (8000,8008); (8001,8009); (8002,8010);
  (8003,8011); (8004,8012); (8005,8013); (8017,8025); (8019,8027);
  (8021,8029); (8023,8031); (8032,8040); (8033,8041); (8034,8042);
  (8035,8043); (8036,8044); (8037,8045); (8038,8046); (8039,8047);
  (8048,8122); (8049,8123); (8050,8136); (8051,8137); (8052,8138);
  (8053,8139); (8054,8154); (8055,8155); (8056,8184); (8057,8185);
  (8058,8170); (8059,8171); (8060,8186); (8061,8187); (8112,8120);
  (8113,8121); (8126,921); (8144,8152); (8145,8153); (8160,8168); (8161,8169);
  (8165,8172); (8526,8498); (8560,8544); (8561,8545); (8562,8546);
  (8563,8547); (8564,8548); (8565,8549); (8566,8550); (8567,8551);
  (8568,8552); (8569,8553); (8570,8554); (8571,8555); (8572,8556);
  (8573,8557); (8574,8558); (8575,8559); (8580,8579); (9424,9398);
  (9425,9399); (9426,9400); (9427,9401); (9428,9402); (9429,9403);
  (9430,9404); (9431,9405); (9432,9406); (9433,9407); (9434,9408);
  (9435,9409); (9436,9410); (9437,9411); (9438,9412); (9439,9413);
  (9440,9414); (9441,9415); (9442,9416); (9443,9417); (9444,9418);
  (9445,9419); (9446,9420); (9447,9421); (9448,9422); (9449,9423);
  (11312,11264); (11313,11265); (11314,11266); (11315,11267); (11316,11268);
  (11317,11269); (11318,11270); (11319,11271); (11320,11272); (11321,11273);
  (11322,11274); (11323,11275); (11324,11276); (11325,11277); (11326,11278);
  (11327,11279); (11328,11280); (11329,11281); (11330,11282); (11331,11283);
  (11332,11284); (11333,11285); (11334,11286); (11335,11287); (11336,11288);
  (11337,11289); (11338,11290); (11339,11291); (11340,11292); (11341,11293);
  (11342,11294); (11343,11295); (11344,11296); (11345,11297); (11346,11298);
  (11347,11299); (11348,11300); (11349,11301); (11350,11302); (11351,11303);
  (11352,11304); (11353,11305); (11354,11306); (11355,11307); (11356,11308);
  (11357,11309); (11358,11310); (11359,11311); (11361,11360); (11365,570);
  (11366,574); (11368,11367); (11370,11369); (11372,11371); (11379,11378);
  (11382,11381); (11393,11392); (11395,11394); (11397,11396); (11399,11398);
  (11401,11400); (11403,11402); (11405,11404); (11407,11406); (11409,11408);
  (11411,11410); (11413,11412); (11415,11414); (11417,11416); (11419,11418);
  (11421,11420); (11423,11422); (11425,11424); (11427,11426); (11429,11428);
  (11431,11430); (11433,11432); (11435,11434); (11437,11436); (11439,11438);
  (11441,11440); (11443,11442); (11445,11444); (11447,11446); (11449,11448);
  (11451,11450); (11453,11452); (11455,11454); (11457,11456); (11459,11458);
  (11461,11460); (11463,11462); (11465,11464); (11467,11466); (11469,11468);
  (11471,11470); (11473,11472); (11475,11474); (11477,11476); (11479,11478);
  (11481,11480); (11483,11482); (11485,11484); (11487,11486); (11489,11488);
  (11491,11490); (11500,11499); (11502,11501); (11507,11506); (11520,4256);
  (11521,4257); (11522,4258); (11523,4259); (11524,4260); (11525,4261);
  (11526,4262); (11527,4263); (11528,4264); (11529,4265); (11530,4266);
  (11531,4267); (11532,4268); (11533,4269); (11534,4270); (11535,4271);
  (11536,4272); (11537,4273); (11538,4274); (11539,4275); (11540,4276);
  (11541,4277); (11542,4278); (11543,4279); (11544,4280); (11545,4281);
  (11546,4282); (11547,4283); (11548,4284); (11549,4285); (11550,4286);
  (11551,4287); (11552,4288); (11553,4289); (11554,4290); (11555,4291);
  (11556,4292); (11557,4293); (11559,4295); (11565,4301); (42561,42560);
  (42563,42562); (42565,42564); (42567,42566); (42569,42568); (42571,42570);
  (42573,42572); (42575,42574); (42577,42576); (42579,42578); (42581,42580);
  (42583,42582); (42585,42584); (42587,42586); (42589,42588); (42591,42590);
  (42593,42592); (42595,42594); (42597,42596); (42599,42598); (42601,42600);
  (42603,42602); (42605,42604); (42625,42624); (42627,42626); (42629,42628);
  (42631,42630); (42633,42632); (42635,42634); (42637,42636); (42639,42638);
  (42641,42640); (42643,42642); (42645,42644); (42647,42646); (42649,42648);
  (42651,42650); (42787,42786); (42789,42788); (42791,42790); (42793,42792);
  (42795,42794); (42797,42796); (42799,42798); (42803,42802); (42805,42804);
  (42807,42806); (42809,42808); (42811,42810); (42813,42812); (42815,42814);
  (42817,42816); (42819,42818); (42821,42820); (42823,42822); (42825,42824);
  (42827,42826); (42829,42828); (42831,42830); (42833,42832); (42835,42834);
  (42837,42836); (42839,42838); (42841,42840); (42843,42842); (42845,42844);
  (42847,42846); (42849,42848); (42851,42850); (42853,42852); (42855,42854);
  (42857,42856); (42859,42858); (42861,42860); (42863,42862); (42874,42873);
  (42876,42875); (42879,42878); (42881,42880); (42883,42882); (42885,42884);
  (42887,42886); (42892,42891); (42897,42896); (42899,42898); (42900,42948);
  (42903,42902); (42905,42904); (42907,42906); (42909,42908); (42911,42910);
  (42913,42912); (42915,42914); (42917,42916); (42919,42918); (42921,42920);
  (42933,42932); (42935,42934); (42937,42936); (42939,42938); (42941,42940);
  (42943,42942); (42945,42944); (42947,42946); (42952,42951); (42954,42953);
  (42961,42960); (42967,42966); (42969,42968); (42998,42997); (43859,42931);
  (43888,5024); (43889,5025); (43890,5026); (43891,5027); (43892,5028);
  (43893,5029); (43894,5030); (43895,5031); (43896,5032); (43897,5033);
  (43898,5034); (43899,5035); (43900,5036); (43901,5037); (43902,5038);
  (43903,5039); (43904,5040); (43905,5041); (43906,5042); (43907,5043);
  (43908,5044); (43909,5045); (43910,5046); (43911,5047); (43912,5048);
  (43913,5049); (43914,5050); (43915,5051); (43916,5052); (43917,5053);
  (43918,5054); (43919,5055); (43920,5056); (43921,5057); (43922,5058);
  (43923,5059); (43924,5060); (43925,5061); (43926,5062); (43927,5063);
  (43928,5064); (43929,5065); (43930,5066); (43931,5067); (43932,5068);
  (43933,5069); (43934,5070); (43935,5071); (43936,5072); (43937,5073);
  (43938,5074); (43939,5075); (43940,5076); (43941,5077); (43942,5078);
  (43943,5079); (43944,5080); (43945,5081); (43946,5082); (43947,5083);
  (43948,5084); (43949,5085); (43950,5086); (43951,5087); (43952,5088);
  (43953,5089); (43954,5090); (43955,5091); (43956,5092); (43957,5093);
  (43958,5094); (43959,5095); (43960,5096); (43961,5097); (43962,5098);
  (43963,5099); (43964,5100); (43965,5101); (43966,5102); (43967,5103);
  (65345,65313); (65346,65314); (65347,65315); (65348,65316); (65349,65317);
  (65350,65318); (65351,65319); (65352,65320); (65353,65321); (65354,65322);
  (65355,65323); (65356,65324); (65357,65325); (65358,65326); (65359,65327);
  (65360,65328); (65361,65329); (65362,65330); (65363,65331); (65364,65332);
  (65365,65333); (65366,65334); (65367,65335); (65368,65336); (65369,65337);
  (65370,65338); (66600,66560); (66601,66561); (66602,66562); (66603,66563);
  (66604,66564); (66605,66565); (66606,66566); (66607,66567); (66608,66568);
  (66609,66569); (66610,66570); (66611,66571); (66612,66572); (66613,66573);
  (66614,66574); (66615,66575); (66616,66576); (66617,66577); (66618,66578);
  (66619,66579); (66620,66580); (66621,66581); (66622,66582); (66623,66583);
  (66624,66584); (66625,66585); (66626,66586); (66627,66587); (66628,66588);
  (66629,66589); (66630,66590); (66631,66591); (66632,66592); (66633,66593);
  (66634,66594); (66635,66595); (66636,66596); (66637,66597); (66638,66598);
  (66639,66599); (66776,66736); (66777,66737); (66778,66738); (66779,66739);
  (66780,66740); (66781,66741); (66782,66742); (66783,66743); (66784,66744);
  (66785,66745); (66786,66746); (66787,66747); (66788,66748); (66789,66749);
  (66790,66750); (66791,66751); (66792,66752); (66793,66753); (66794,66754);
  (66795,66755); (66796,66756); (66797,66757); (66798,66758); (66799,66759);
  (66800,66760); (66801,66761); (66802,66762); (66803,66763); (66804,66764);
  (66805,66765); (66806,66766); (66807,66767); (66808,66768); (66809,66769);
  (66810,66770); (66811,66771); (66967,66928); (66968,66929); (66969,66930);
  (66970,66931); (66971,66932); (66972,66933); (66973,66934); (66974,66935);
  (66975,66936); (66976,66937); (66977,66938); (66979,66940); (66980,66941);
  (66981,66942); (66982,66943); (66983,66944); (66984,66945); (66985,66946);
  (66986,66947); (66987,66948); (66988,66949); (66989,66950); (66990,66951);
  (66991,66952); (66992,66953); (66993,66954); (66995,66956); (66996,66957);
  (66997,66958); (66998,66959); (66999,66960); (67000,66961); (67001,66962);
  (67003,66964); (67004,66965); (68800,68736); (68801,68737); (68802,68738);
  (68803,68739); (68804,68740); (68805,68741); (68806,68742); (68807,68743);
  (68808,68744); (68809,68745); (68810,68746); (68811,68747); (68812,68748);
  (68813,68749); (68814,68750); (68815,68751); (68816,68752); (68817,68753);
  (68818,68754); (68819,68755); (68820,68756); (68821,68757); (68822,68758);
  (68823,68759); (68824,68760); (68825,68761); (68826,68762); (68827,68763);
  (68828,68764); (68829,68765); (68830,68766); (68831,68767); (68832,68768);
  (68833,68769); (68834,68770); (68835,68771); (68836,68772); (68837,68773);
  (68838,68774); (68839,68775); (68840,68776); (68841,68777); (68842,68778);
  (68843,68779); (68844,68780); (68845,68781); (68846,68782); (68847,68783);
  (68848,68784); (68849,68785); (68850,68786); (71872,71840); (71873,71841);
  (71874,71842); (71875,71843); (71876,71844); (71877,71845); (71878,71846);
  (71879,71847); (71880,71848); (71881,71849); (71882,71850); (71883,71851);
  (71884,71852); (71885,71853); (71886,71854); (71887,71855); (71888,71856);
  (71889,71857); (71890,71858); (71891,71859); (71892,71860); (71893,71861);
  (71894,71862); (71895,71863); (71896,71864); (71897,71865); (71898,71866);
  (71899,71867); (71900,71868); (71901,71869); (71902,71870); (71903,71871);
  (93792,93760); (93793,93761); (93794,93762); (93795,93763); (93796,93764);
  (93797,93765); (93798,93766); (93799,93767); (93800,93768); (93801,93769);
  (93802,93770); (93803,93771); (93804,93772); (93805,93773); (93806,93774);
  (93807,93775); (93808,93776); (93809,93777); (93810,93778); (93811,93779);
  (93812,93780); (93813,93781); (93814,93782); (93815,93783); (93816,93784);
  (93817,93785); (93818,93786); (93819,93787); (93820,93788); (93821,93789);
  (93822,93790); (93823,93791); (125218,125184); (125219,125185);
  (125220,125186); (125221,125187); (125222,125188); (125223,125189);
  (125224,125190); (125225,125191); (125226,125192); (125227,125193);
  (125228,125194); (125229,125195); (125230,125196); (125231,125197);
  (125232,125198); (125233,125199); (125234,125200); (125235,125201);
  (125236,125202); (125237,125203); (125238,125204); (125239,125205);
  (125240,125206); (125241,125207); (125242,125208); (125243,125209);
  (125244,125210); (125245,125211); (125246,125212); (125247,125213);
  (125248,125214); (125249,125215); (125250,125216); (125251,125217)]%N.

Definition unicode_special_upper : list (char * str) := [
  (223,[83;83]); (329,[700;78]); (496,[74;780]); (912,[921;776;769]);
  (944,[933;776;769]); (1415,[1333;1362]); (7830,[72;817]); (7831,[84;776]);
  (7832,[87;778]); (7833,[89;778]); (7834,[65;702]); (8016,[933;787]);
  (8018,[933;787;768]); (8020,[933;787;769]); (8022,[933;787;834]);
  (8064,[7944;921]); (8065,[7945;921]); (8066,[7946;921]); (8067,[7947;921]);
  (8068,[7948;921]); (8069,[7949;921]); (8070,[7950;921]); (8071,[7951;921]);
  (8072,[7944;921]); (8073,[7945;921]); (8074,[7946;921]); (8075,[7947;921]);
  (8076,[7948;921]); (8077,[7949;921]); (8078,[7950;921]); (8079,[7951;921]);
  (8080,[7976;921]); (8081,[7977;921]); (8082,[7978;921]); (8083,[7979;921]);
  (8084,[7980;921]); (8085,[7981;921]); (8086,[7982;921]); (8087,[7983;921]);
  (8088,[7976;921]); (8089,[7977;921]); (8090,[7978;921]); (8091,[7979;921]);
  (8092,[7980;921]); (8093,[7981;921]); (8094,[7982;921]); (8095,[7983;921]);
  (8096,[8040;921]); (8097,[8041;921]); (8098,[8042;921]); (8099,[8043;921]);
  (8100,[8044;921]); (8101,[8045;921]); (8102,[8046;921]); (8103,[8047;921]);
  (8104,[8040;921]); (8105,[8041;921]); (8106,[8042;921]); (8107,[8043;921]);
  (8108,[8044;921]); (8109,[8045;921]); (8110,[8046;921]); (8111,[8047;921]);
  (8114,[8122;921]); (8115,[913;921]); (8116,[902;921]); (8118,[913;834]);
  (8119,[913;834;921]); (8124,[913;921]); (8130,[8138;921]); (8131,[919;921]);
  (8132,[905;921]); (8134,[919;834]); (8135,[919;834;921]); (8140,[919;921]);
  (8146,[921;776;768]); (8147,[921;776;769]); (8150,[921;834]);
  (8151,[921;776;834]); (8162,[933;776;768]); (8163,[933;776;769]);
  (8164,[929;787]); (8166,[933;834]); (8167,[933;776;834]); (8178,[8186;921]);
  (8179,[937;921]); (8180,[911;921]); (8182,[937;834]); (8183,[937;834;921]);
  (8188,[937;921]); (64256,[70;70]); (64257,[70;73]); (64258,[70;76]);
  (64259,[70;70;73]); (64260,[70;70;76]); (64261,[83;84]); (64262,[83;84]);
  (64275,[1348;1350]); (64276,[1348;1333]); (64277,[1348;1339]);
  (64278,[1358;1350]); (64279,[1348;1341])]%N.

Fixpoint assoc {V} (c : char) (t : list (char * V)) : option V :=
  match t with
  | [] => None
  | (k, v) :: rest => if N.eqb k c then Some v else assoc c rest
  end.

Definition upper_char (c : char) : str :=
  match assoc c unicode_special_upper with
  | Some u => u
  | None =>
      match assoc c unicode_simple_upper with
      | Some u => [u]
      | None => [c]
      end
  end.

Definition upper (s : str) : str := flat_map upper_char s.

(** ** ita2.py *)

Definition NUL : str := [0%N].
Definition BEL : str := [7%N].
Definition LF : str := [10%N].
Definition CR : str := [13%N].
Definition QUOTE : str := [34%N].
Definition POUND : str := [163%N].

Definition ita2_letters : dict str := [
  (py "000x00", NUL);    (py "000x01", py "E"); (py "000x10", LF);     (py "000x11", py "A");
  (py "001x00", py " "); (py "001x01", py "S"); (py "001x10", py "I"); (py "001x11", py "U");
  (py "010x00", CR);     (py "010x01", py "D"); (py "010x10", py "R"); (py "010x11", py "J");
  (py "011x00", py "N"); (py "011x01", py "F"); (py "011x10", py "C"); (py "011x11", py "K");
  (py "100x00", py "T"); (py "100x01", py "Z"); (py "100x10", py "L"); (py "100x11", py "W");
  (py "101x00", py "H"); (py "101x01", py "Y"); (py "101x10", py "P"); (py "101x11", py "Q");
  (py "110x00", py "O"); (py "110x01", py "B"); (py "110x10", py "G"); (py "110x11", py "f");
  (py "111x00", py "M"); (py "111x01", py "X"); (py "111x10", py "V"); (py "111x11", py "l")
].

Definition ita2std_figures : dict str := [
  (py "000x00", NUL);    (py "000x01", py "3"); (py "000x10", LF);     (py "000x11", py "-");
  (py "001x00", py " "); (py "001x01", py "'"); (py "001x10", py "8"); (py "001x11", py "7");
  (py "010x00", CR);     (py "010x01", py "e"); (py "010x10", py "4"); (py "010x11", BEL);
  (py "011x00", py ","); (py "011x01", py "!"); (py "011x10", py ":"); (py "011x11", py "(");
  (py "100x00", py "5"); (py "100x01", py "+"); (py "100x10", py ")"); (py "100x11", py "2");
  (py "101x00", POUND);  (py "101x01", py "6"); (py "101x10", py "0"); (py "101x11", py "1");
  (py "110x00", py "9"); (py "110x01", py "?"); (py "110x10", py "&"); (py "110x11", py "f");
  (py "111x00", py "."); (py "111x01", py "/"); (py "111x10", py "="); (py "111x11", py "l")
].

Definition ita2us_figures : dict str := [
  (py "000x00", NUL);    (py "000x01", py "3"); (py "000x10", LF);     (py "000x11", py "-");
  (py "001x00", py " "); (py "001x01", BEL);    (py "001x10", py "8"); (py "001x11", py "7");
  (py "010x00", CR);     (py "010x01", py "$"); (py "010x10", py "4"); (py "010x11", py "'");
  (py "011x00", py ","); (py "011x01", py "!"); (py "011x10", py ":"); (py "011x11", py "(");
  (py "100x00", py "5"); (py "100x01", QUOTE);  (py "100x10", py ")"); (py "100x11", py "2");
  (py "101x00", py "#"); (py "101x01", py "6"); (py "101x10", py "0"); (py "101x11", py "1");
  (py "110x00", py "9"); (py "110x01", py "?"); (py "110x10", py "&"); (py "110x11", py "f");
  (py "111x00", py "."); (py "111x01", py "/"); (py "111x10", py ";"); (py "111x11", py "l")
].

(** The letters tables of the two codepages are written out twice in the
    source, with the same items. *)
Definition CODEPAGES : dict (dict (dict str)) := [
  (py "ita2std", [(py "letters", ita2_letters); (py "figures", ita2std_figures)]);
  (py "ita2us",  [(py "letters", ita2_letters); (py "figures", ita2us_figures)])
].

(** Finds the first key of a value in a dictionary. *)
Fixpoint kfind (dictionary : dict str) (value : str) : str :=
  match dictionary with
  | [] => []
  | (key, val) :: rest =>
      if str_eqb val value then key else kfind rest value
  end.

(** One iteration of the encoder's loop over [(letters_mode, result)]. *)
Definition encode_step (letters figures : dict str)
    (st : bool * list str) (character : char) : bool * list str :=
  let '(letters_mode, result) := st in
  if letters_mode then
    if in_values [character] letters then
      (letters_mode, result ++ [kfind letters [character]])
    else
      (false, (result ++ [kfind figures (py "f")])
                ++ [kfind figures [character]])
  else
    if in_values [character] figures then
      (letters_mode, result ++ [kfind figures [character]])
    else
      (true, (result ++ [kfind letters (py "l")])
               ++ [kfind letters [character]]).

(** The loop [for character in message], from the state [st]. *)
Definition encode_loop (letters figures : dict str) (message : str)
    (st : bool * list str) : bool * list str :=
  fold_left (encode_step letters figures) message st.

Definition ita2_encode (message codepage : str) (letters_mode : bool)
    : result (list str) :=
  let message := upper message in
  cp <- dict_get CODEPAGES codepage ;;
  letters <- dict_get cp (py "letters") ;;
  figures <- dict_get cp (py "figures") ;;
  let result := [kfind letters (if letters_mode then py "l" else py "f")] in
  Ok (snd (encode_loop letters figures message (letters_mode, result))).

(** One iteration of the decoder's loop over [(letters_mode, result)]. *)
Definition decode_step (letters figures : dict str)
    (st : bool * str) (code : str) : result (bool * str) :=
  let '(letters_mode, result) := st in
  l <- dict_get letters code ;;
  if str_eqb l (py "l") then Ok (true, result)
  else
    f <- dict_get figures code ;;
    if str_eqb f (py "f") then Ok (false, result)
    else
      v <- (if letters_mode then dict_get letters code
            else dict_get figures code) ;;
      Ok (letters_mode, result ++ v).

(** A [for] loop whose body may raise. *)
Fixpoint for_each {S X} (body : S -> X -> result S) (xs : list X) (st : S)
    : result S :=
  match xs with
  | [] => Ok st
  | x :: rest => st' <- body st x ;; for_each body rest st'
  end.

Definition ita2_decode (message : list str) (codepage : str)
    (letters_mode : bool) : result str :=
  cp <- dict_get CODEPAGES codepage ;;
  letters <- dict_get cp (py "letters") ;;
  figures <- dict_get cp (py "figures") ;;
  st <- for_each (decode_step letters figures) message (letters_mode, []) ;;
  Ok (snd st).

(** *** The tape renderer

    [ita2_draw] returns [None] and writes to the standard output.  An [io]
    action takes the output written so far and gives the output after it,
    with the exception that stopped it, if any. *)
Definition io := str -> str * option exn.

Definition skip : io := fun out => (out, None).
Definition raise (e : exn) : io := fun out => (out, Some e).

Definition and_then (a b : io) : io :=
  fun out =>
    match a out with
    | (out', None) => b out'
    | stopped => stopped
    end.

Fixpoint for_io {X} (body : X -> io) (xs : list X) : io :=
  match xs with
  | [] => skip
  | x :: rest => and_then (body x) (for_io body rest)
  end.

(** [print(s, end=e)] *)
Definition print (s e : str) : io := fun out => (out ++ s ++ e, None).

(** [s * n] *)
Definition str_mul (s : str) (n : Z) : str :=
  List.concat (repeat s (Z.to_nat n)).

(** [s[i]] for an index that is not negative. *)
Definition subscript (s : str) (i : nat) : result char :=
  match nth_error s i with
  | Some c => Ok c
  | None => Raise IndexError
  end.

Definition HEAVY_LINE : str := [9473%N].
Definition PUNCHED : str := [11044%N].
Definition SPROCKET : str := [9679%N].

(** The body of the inner loop: the cell of [code[j]] in row [i]. *)
Definition draw_cell (i : nat) (code_j : str) : io :=
  match subscript code_j (5 - i) with
  | Raise e => raise e
  | Ok c =>
      if str_eqb [c] (py "1") then print PUNCHED (py " ")
      else if str_eqb [c] (py "0") then print (py " ") (py " ")
      else if str_eqb [c] (py "x") then print SPROCKET (py " ")
      else skip
  end.

(** The body of the outer loop; [for j in range(len(code))] visits the
    elements of [code] in order. *)
Definition draw_row (code : list str) (i : nat) : io :=
  and_then (print (py " ") [])
    (and_then (for_io (draw_cell i) code) (print (py " ") LF)).

Definition ita2_draw (code : list str) : io :=
  let border := str_mul HEAVY_LINE (Z.of_nat (List.length code) * 2 + 2) in
  and_then (print border LF)
    (and_then (for_io (draw_row code) (List.seq 0 6)) (print border LF)).

(** *** The demonstration

    A procedure prints and then returns a value or raises. *)
Definition proc (A : Type) := str -> str * result A.

Definition ret {A} (a : A) : proc A := fun out => (out, Ok a).

Definition then_do {A B} (p : proc A) (k : A -> proc B) : proc B :=
  fun out =>
    match p out with
    | (out', Ok a) => k a out'
    | (out', Raise e) => (out', Raise e)
    end.

(** A call that only prints. *)
Definition call (a : io) : proc unit :=
  fun out =>
    match a out with
    | (out', None) => (out', Ok tt)
    | (out', Some e) => (out', Raise e)
    end.

(** A call that prints nothing. *)
Definition value {A} (r : result A) : proc A := fun out => (out, r).

Notation "x <~ p ;; k" := (then_do p (fun x => k))
  (at level 61, p at next level, right associativity).

(** Tests the encoding/decoding capability. *)
Definition ita2_test : proc bool :=
  _ <~ call (print [] LF) ;;
  _ <~ call (print (py " I THINK, THEREFORE I AM") LF) ;;
  let english :=
    ([10; 13; 10; 13; 10; 13; 10; 13]%N ++ py "I THINK, THEREFORE I AM")
      ++ [13; 10; 13; 10; 13; 10; 13; 10]%N in
  english_encoded <~ value (ita2_encode english (py "ita2std") false) ;;
  _ <~ call (ita2_draw (tl english_encoded)) ;;
  english_decoded <~ value (ita2_decode english_encoded (py "ita2std") true) ;;
  if negb (str_eqb english english_decoded) then ret false
  else
    _ <~ call (print [] LF) ;;
    _ <~ call (print (py " COGITO ERGO SUM") LF) ;;
    let latin :=
      ([10; 13; 10; 13; 10; 13; 10; 13; 10; 13; 10; 13; 10]%N
         ++ py "COGITO ERGO SUM")
        ++ [13; 10; 13; 10; 13; 10; 13; 10; 13; 10; 13; 10; 13]%N in
    latin_encoded <~ value (ita2_encode latin (py "ita2std") false) ;;
    _ <~ call (ita2_draw (tl latin_encoded)) ;;
    latin_decoded <~ value (ita2_decode latin_encoded (py "ita2std") true) ;;
    if negb (str_eqb latin latin_decoded) then ret false
    else ret true.

(** ** leftpad.py *)

(** The values [fill] can take: a [str], an [int], or anything else. *)
Inductive fill_value :=
| FillStr (s : str)
| FillInt (n : Z)
| FillOther.

(** [str(n)] for an [int]: the decimal digits, after a minus sign when
    [n] is negative. *)
Definition str_of_int (n : Z) : str :=
  py (NilEmpty.string_of_int (Z.to_int n)).

Definition leftpad (string : str) (length : Z) (fill : fill_value)
    : result str :=
  let old_length := Z.of_nat (List.length string) in
  let new_length := if (length <=? old_length)%Z then old_length else length in
  let pad_length := (new_length - old_length)%Z in
  match fill with
  | FillStr fill =>
      c <- subscript fill 0 ;; Ok (str_mul [c] pad_length ++ string)
  | FillInt fill =>
      c <- subscript (str_of_int fill) 0 ;;
      Ok (str_mul [c] pad_length ++ string)
  | FillOther => Raise TypeError
  end.

(** ** Vocabulary of the statements *)

(** The table of a codepage, [CODEPAGES[codepage][which]]; empty when the
    subscripts raise. *)
Definition table (codepage which : str) : dict str :=
  match (cp <- dict_get CODEPAGES codepage ;; dict_get cp which) with
  | Ok t => t
  | Raise _ => []
  end.

Definition letters_of (codepage : str) : dict str := table codepage (py "letters").
Definition figures_of (codepage : str) : dict str := table codepage (py "figures").

(** The table the encoder and the decoder consult in a given mode. *)
Definition table_of (codepage : str) (letters_mode : bool) : dict str :=
  if letters_mode then letters_of codepage else figures_of codepage.

(** The two shift codes. *)
Definition LTRS : str := py "111x11".
Definition FIGS : str := py "110x11".

Definition shift_code (letters_mode : bool) : str :=
  if letters_mode then LTRS else FIGS.

(** [code] is the code under which the tables of [codepage] hold the
    placeholder that the decoder reads as the shift to the given mode. *)
Definition is_shift_code (codepage : str) (letters_mode : bool) (code : str)
    : Prop :=
  if letters_mode
  then dict_get (letters_of codepage) code = Ok (py "l")
  else dict_get (figures_of codepage) code = Ok (py "f").

(** The characters that are not ASCII lowercase letters. *)
Definition not_lower (u : char) : bool := ((u <? 97) || (122 <? u))%N.

(** Decoding what one iteration of the encoder appends for [u] in mode
    [mode] gives back [u] and leaves the decoder in the encoder's mode. *)
Definition char_round_trip (letters figures : dict str) (mode : bool)
    (u : char) : bool :=
  let '(mode', codes) := encode_step letters figures (mode, []) u in
  match for_each (decode_step letters figures) codes (mode, []) with
  | Ok (m, text) => Bool.eqb m mode' && str_eqb text [u]
  | Raise _ => false
  end.

Definition table_round_trip (letters figures : dict str) : bool :=
  forallb (fun v =>
             match v with
             | [u] => negb (not_lower u)
                      || (char_round_trip letters figures true u
                          && char_round_trip letters figures false u)
             | _ => true
             end) (values letters ++ values figures).

(** A well-formed code is one of the 32 patterns of the code tables. *)
Definition well_formed (code : str) : Prop := In code (keys ita2_letters).

(** The mark of a code in the row of a position of the pattern: the row of
    position 3, the [x] of every pattern, carries the third mark, the black
    circle U+25CF; in the rows of the five bit positions a set bit is
    punched, the black large circle U+2B24, and a clear bit left blank. *)
Definition mark (position : nat) (code_j : str) : str :=
  if Nat.eqb position 3 then [9679%N]
  else if str_eqb [nth position code_j 0%N] (py "1") then [11044%N]
  else py " ".

Definition tape_row (code : list str) (position : nat) : str :=
  py " " ++ flat_map (fun code_j => mark position code_j ++ py " ") code
    ++ py " " ++ LF.

Definition tape_border (code : list str) : str :=
  repeat 9473%N (2 * List.length code + 2) ++ LF.

Definition cell_drawn (i : nat) (code_j : str) : bool :=
  match draw_cell i code_j [] with
  | (drawn, None) => str_eqb drawn (mark (5 - i) code_j ++ py " ")
  | (_, Some _) => false
  end.

(** The text whose first character pads: [fill] itself, or [str(fill)]. *)
Definition fill_text (fill : fill_value) : str :=
  match fill with
  | FillStr s => s
  | FillInt n => str_of_int n
  | FillOther => []
  end.

(** [fill] is a non-empty [str] or an [int]. *)
Definition usable_fill (fill : fill_value) : Prop :=
  match fill with
  | FillStr s => s <> []
  | FillInt _ => True
  | FillOther => False
  end.

(** A shift code, as opposed to the code of a character. *)
Definition is_shift (code : str) : bool :=
  str_eqb code LTRS || str_eqb code FIGS.

(** What one iteration of the decoder does with the key [code] in mode
    [mode]: a shift code sets the mode and adds nothing; any other key keeps
    the mode and adds the one character the table of the mode holds for it,
    which is neither placeholder. *)
Definition decode_step_shape (letters figures : dict str) (mode : bool)
    (code : str) : bool :=
  match decode_step letters figures (mode, []) code with
  | Ok (mode', text) =>
      if str_eqb code LTRS then Bool.eqb mode' true && str_eqb text []
      else if str_eqb code FIGS then Bool.eqb mode' false && str_eqb text []
      else
        Bool.eqb mode' mode
        && Nat.eqb (List.length text) 1
        && negb (str_eqb text (py "f")) && negb (str_eqb text (py "l"))
        && match dict_get (if mode then letters else figures) code with
           | Ok v => str_eqb text v
           | Raise _ => false
           end
  | Raise _ => false
  end.

(** The number of characters [leftpad] puts before [string]. *)
Definition pad_count (string : str) (length : Z) : nat :=
  Z.to_nat (Z.max length (Z.of_nat (List.length string))
            - Z.of_nat (List.length string)).

(** * Properties *)

Lemma str_eqb_eq (a b : str) : str_eqb a b = true <-> a = b.
Proof.
  unfold str_eqb. destruct (list_eq_dec N.eq_dec a b); split; intros H;
    try reflexivity; try assumption; try discriminate; contradiction.
Qed.

Lemma str_eqb_refl (a : str) : str_eqb a a = true.
Proof. apply str_eqb_eq. reflexivity. Qed.

Lemma str_eqb_neq (a b : str) : str_eqb a b = false <-> a <> b.
Proof.
  unfold str_eqb. destruct (list_eq_dec N.eq_dec a b); split; intros H;
    try reflexivity; try assumption; try discriminate; contradiction.
Qed.

Lemma codepage_cases (codepage : str) :
  In codepage (keys CODEPAGES) ->
  codepage = py "ita2std" \/ codepage = py "ita2us".
Proof.
  simpl. intros [H | [H | []]]; [left | right]; symmetry; exact H.
Qed.

Ltac each_codepage H :=
  apply codepage_cases in H; destruct H as [H | H]; subst.

(** On a known codepage the encoder is its loop, run from the priming code. *)
Lemma ita2_encode_known (message codepage : str) (letters_mode : bool) :
  In codepage (keys CODEPAGES) ->
  ita2_encode message codepage letters_mode
  = Ok (snd (encode_loop (letters_of codepage) (figures_of codepage)
               (upper message) (letters_mode, [shift_code letters_mode]))).
Proof.
  intros H. each_codepage H; destruct letters_mode; reflexivity.
Qed.

Lemma ita2_decode_known (message : list str) (codepage : str)
    (letters_mode : bool) :
  In codepage (keys CODEPAGES) ->
  ita2_decode message codepage letters_mode
  = (st <- for_each (decode_step (letters_of codepage) (figures_of codepage))
             message (letters_mode, []) ;;
     Ok (snd st)).
Proof.
  intros H. each_codepage H; reflexivity.
Qed.

Section EncoderLoop.
Variables letters figures : dict str.

Lemma encode_step_acc (mode : bool) (res : list str) (c : char) :
  encode_step letters figures (mode, res) c
  = (fst (encode_step letters figures (mode, []) c),
     res ++ snd (encode_step letters figures (mode, []) c)).
Proof.
  unfold encode_step.
  destruct mode;
    [destruct (in_values [c] letters) | destruct (in_values [c] figures)];
    simpl; rewrite <- ?app_assoc; reflexivity.
Qed.

Lemma encode_loop_cons (c : char) (m : str) (st : bool * list str) :
  encode_loop letters figures (c :: m) st
  = encode_loop letters figures m (encode_step letters figures st c).
Proof. reflexivity. Qed.

Lemma encode_loop_acc (m : str) : forall (mode : bool) (res : list str),
  encode_loop letters figures m (mode, res)
  = (fst (encode_loop letters figures m (mode, [])),
     res ++ snd (encode_loop letters figures m (mode, []))).
Proof.
  induction m as [| c m IH]; intros mode res.
  - simpl. rewrite app_nil_r. reflexivity.
  - rewrite !encode_loop_cons, encode_step_acc.
    destruct (encode_step letters figures (mode, []) c) as [m1 r1].
    cbn [fst snd].
    rewrite (IH m1 (res ++ r1)), (IH m1 r1).
    cbn [fst snd]. rewrite app_assoc. reflexivity.
Qed.

Lemma encode_loop_app (m1 m2 : str) (st : bool * list str) :
  encode_loop letters figures (m1 ++ m2) st
  = encode_loop letters figures m2 (encode_loop letters figures m1 st).
Proof. unfold encode_loop. apply fold_left_app. Qed.
End EncoderLoop.

Lemma known_ita2std : In (py "ita2std") (keys CODEPAGES).
Proof. simpl. left. reflexivity. Qed.

Lemma known_ita2us : In (py "ita2us") (keys CODEPAGES).
Proof. simpl. right. left. reflexivity. Qed.

(** ** The priming code *)

(** C3: for every string [s], the empty one included, and every codepage,
    the first element of [ita2_encode s codepage True] is the letters-shift
    code and the first element of [ita2_encode s codepage False] is the
    figures-shift code of that codepage. *)
Theorem encode_starts_with_priming_code (s codepage : str) :
  In codepage (keys CODEPAGES) ->
  (is_shift_code codepage true LTRS /\
   exists rest, ita2_encode s codepage true = Ok (LTRS :: rest)) /\
  (is_shift_code codepage false FIGS /\
   exists rest, ita2_encode s codepage false = Ok (FIGS :: rest)).
Proof.
  intros H.
  assert (P : forall mode, exists rest,
             ita2_encode s codepage mode = Ok (shift_code mode :: rest)).
  { intros mode. rewrite (ita2_encode_known _ _ _ H), encode_loop_acc.
    cbn [snd app]. eexists. reflexivity. }
  split; (split; [| apply (P true) || apply (P false)]);
    each_codepage H; reflexivity.
Qed.

Lemma encode_starts_with_priming_code_witness :
  In (py "ita2std") (keys CODEPAGES) /\
  (exists rest, ita2_encode (py "Hello 42") (py "ita2std") true
                = Ok (LTRS :: rest)) /\
  (exists rest, ita2_encode [] (py "ita2std") false = Ok (FIGS :: rest)).
Proof.
  split; [exact known_ita2std |].
  split.
  - apply (encode_starts_with_priming_code (py "Hello 42") (py "ita2std")).
    simpl. left. reflexivity.
  - apply (encode_starts_with_priming_code [] (py "ita2std")).
    simpl. left. reflexivity.
Defined.

(** ** Shift insertion *)

(** C4: under either codepage, ["A1B"] encoded from letters mode is the
    letters shift, the code of [A], the figures shift, the code of [1], the
    letters shift and the code of [B]: six codes. *)
Theorem encode_A1B (codepage : str) :
  In codepage (keys CODEPAGES) ->
  ita2_encode (py "A1B") codepage true
  = Ok [LTRS; py "000x11"; FIGS; py "101x11"; LTRS; py "110x01"] /\
  dict_get (letters_of codepage) (py "000x11") = Ok (py "A") /\
  dict_get (figures_of codepage) (py "101x11") = Ok (py "1") /\
  dict_get (letters_of codepage) (py "110x01") = Ok (py "B") /\
  is_shift_code codepage true LTRS /\ is_shift_code codepage false FIGS.
Proof.
  intros H. each_codepage H; vm_compute; repeat split; reflexivity.
Qed.

Lemma encode_A1B_witness :
  In (py "ita2us") (keys CODEPAGES) /\
  ita2_encode (py "A1B") (py "ita2us") true
  = Ok [LTRS; py "000x11"; FIGS; py "101x11"; LTRS; py "110x01"].
Proof.
  split; [simpl; right; left; reflexivity |].
  apply (encode_A1B (py "ita2us")). simpl. right. left. reflexivity.
Defined.

(** ** Empty input *)

(** C6: for every codepage and mode, the empty string encodes to one code,
    the priming shift code, and the sequence made of that code alone
    decodes to the empty string. *)
Theorem empty_message (codepage : str) (letters_mode : bool) :
  In codepage (keys CODEPAGES) ->
  exists codes,
    ita2_encode [] codepage letters_mode = Ok codes /\
    List.length codes = 1 /\
    codes = [shift_code letters_mode] /\
    is_shift_code codepage letters_mode (shift_code letters_mode) /\
    ita2_decode [shift_code letters_mode] codepage letters_mode = Ok [].
Proof.
  intros H. exists [shift_code letters_mode].
  each_codepage H; destruct letters_mode; vm_compute;
    repeat split; reflexivity.
Qed.

Lemma empty_message_witness :
  In (py "ita2std") (keys CODEPAGES) /\
  exists codes,
    ita2_encode [] (py "ita2std") false = Ok codes /\
    List.length codes = 1 /\
    codes = [FIGS] /\
    is_shift_code (py "ita2std") false FIGS /\
    ita2_decode [FIGS] (py "ita2std") false = Ok [].
Proof.
  split; [simpl; left; reflexivity |].
  apply (empty_message (py "ita2std") false). simpl. left. reflexivity.
Defined.

(** ** The codepage tables *)

Lemma in_values_In (v : str) (d : dict str) :
  in_values v d = true <-> In v (values d).
Proof.
  unfold in_values. rewrite existsb_exists. split.
  - intros [x [Hx E]]. apply str_eqb_eq in E. subst. exact Hx.
  - intros H. exists v. split; [exact H | apply str_eqb_refl].
Qed.

Lemma NoDup_by_nodup (l : list str) :
  nodup (list_eq_dec N.eq_dec) l = l -> NoDup l.
Proof. intros E. rewrite <- E. apply NoDup_nodup. Qed.

(** C9: in both codepages, the letters and the figures table have 32 entries
    each over one and the same keys; ['f'] sits at ["110x11"] and ['l'] at
    ["111x11"] in every table; the characters the two tables of a codepage
    share, among them null, line feed, carriage return and space, have the
    same code in both.  So the priming lookup, which searches the letters
    table in either mode, returns the shift code of the initial mode, and a
    shared character decodes to itself in either mode. *)
Theorem codepage_tables_aligned (codepage : str) :
  In codepage (keys CODEPAGES) ->
  let letters := letters_of codepage in
  let figures := figures_of codepage in
  (List.length letters = 32 /\ List.length figures = 32) /\
  (NoDup (keys letters) /\ keys figures = keys letters /\
   keys letters = keys ita2_letters) /\
  (dict_get letters FIGS = Ok (py "f") /\ dict_get figures FIGS = Ok (py "f") /\
   dict_get letters LTRS = Ok (py "l") /\ dict_get figures LTRS = Ok (py "l")) /\
  (forall v, In v [NUL; LF; CR; py " "] ->
     In v (values letters) /\ In v (values figures)) /\
  (forall v, In v (values letters) -> In v (values figures) ->
     kfind letters v = kfind figures v) /\
  (forall letters_mode : bool,
     kfind letters (if letters_mode then py "l" else py "f")
     = shift_code letters_mode /\
     is_shift_code codepage letters_mode (shift_code letters_mode)) /\
  (forall v, In v [NUL; LF; CR; py " "] ->
     forall (letters_mode : bool) (result : str),
       decode_step letters figures (letters_mode, result) (kfind letters v)
       = Ok (letters_mode, result ++ v)).
Proof.
  intros H. cbv zeta.
  assert (shared : forallb (fun v =>
            implb (in_values v (figures_of codepage))
              (str_eqb (kfind (letters_of codepage) v)
                 (kfind (figures_of codepage) v)))
            (values (letters_of codepage)) = true)
    by (each_codepage H; vm_compute; reflexivity).
  repeat match goal with |- _ /\ _ => split end.
  - each_codepage H; reflexivity.
  - each_codepage H; reflexivity.
  - apply NoDup_by_nodup. each_codepage H; vm_compute; reflexivity.
  - each_codepage H; reflexivity.
  - each_codepage H; reflexivity.
  - each_codepage H; reflexivity.
  - each_codepage H; reflexivity.
  - each_codepage H; reflexivity.
  - each_codepage H; reflexivity.
  - intros v Hv. rewrite <- !in_values_In.
    simpl in Hv. decompose [or] Hv; try contradiction; subst v;
      each_codepage H; split; vm_compute; reflexivity.
  - intros v HL HF. rewrite forallb_forall in shared.
    specialize (shared v HL). apply in_values_In in HF. rewrite HF in shared.
    apply str_eqb_eq. exact shared.
  - intros mode. each_codepage H; destruct mode; split; reflexivity.
  - intros v Hv mode result.
    simpl in Hv. decompose [or] Hv; try contradiction; subst v;
      each_codepage H; destruct mode; reflexivity.
Qed.

Lemma codepage_tables_aligned_witness :
  In (py "ita2std") (keys CODEPAGES) /\
  List.length (figures_of (py "ita2std")) = 32 /\
  kfind (letters_of (py "ita2std")) (py "f") = FIGS /\
  decode_step (letters_of (py "ita2std")) (figures_of (py "ita2std"))
    (false, py "12") (py "001x00")
  = Ok (false, py "12 ").
Proof.
  assert (known : In (py "ita2std") (keys CODEPAGES))
    by (simpl; left; reflexivity).
  split; [exact known |].
  pose proof (codepage_tables_aligned (py "ita2std") known) as T.
  cbv zeta in T.
  destruct T as [[_ size] [_ [_ [_ [_ [priming shared]]]]]].
  split; [exact size |].
  split; [exact (proj1 (priming false)) |].
  apply (shared (py " ")). simpl. right. right. right. left. reflexivity.
Defined.

(** ** Malformed codes *)

Lemma dict_get_not_key {V} (d : dict V) (k : str) :
  ~ In k (keys d) -> dict_get d k = Raise KeyError.
Proof.
  induction d as [| [key val] rest IH]; intros H; simpl.
  - reflexivity.
  - destruct (str_eqb key k) eqn:E.
    + apply str_eqb_eq in E. exfalso. apply H. left. exact E.
    + apply IH. intros K. apply H. right. exact K.
Qed.

Lemma dict_get_In {V} (d : dict V) (k : str) (v : V) :
  dict_get d k = Ok v -> In (k, v) d.
Proof.
  induction d as [| [key val] rest IH]; simpl; intros H.
  - discriminate.
  - destruct (str_eqb key k) eqn:E.
    + apply str_eqb_eq in E. injection H as ->. subst. left. reflexivity.
    + right. apply IH. exact H.
Qed.

Lemma dict_get_raises {V} (d : dict V) (k : str) (e : exn) :
  dict_get d k = Raise e -> e = KeyError.
Proof.
  induction d as [| [key val] rest IH]; simpl; intros H.
  - injection H as <-. reflexivity.
  - destruct (str_eqb key k); [discriminate | apply IH; exact H].
Qed.

Section DecoderErrors.
Variables letters figures : dict str.

Lemma decode_step_raises (st : bool * str) (code : str) (e : exn) :
  decode_step letters figures st code = Raise e -> e = KeyError.
Proof.
  destruct st as [mode result]. unfold decode_step, bind.
  destruct (dict_get letters code) as [l | e1] eqn:EL.
  - destruct (str_eqb l (py "l")); [discriminate |].
    destruct (dict_get figures code) as [f | e2] eqn:EF.
    + destruct (str_eqb f (py "f")); [discriminate |].
      destruct mode; rewrite ?EL, ?EF; discriminate.
    + intros H. injection H as <-. apply (dict_get_raises _ _ _ EF).
  - intros H. injection H as <-. apply (dict_get_raises _ _ _ EL).
Qed.

Lemma decode_step_not_key (st : bool * str) (code : str) :
  ~ In code (keys letters) ->
  decode_step letters figures st code = Raise KeyError.
Proof.
  intros H. destruct st as [mode result]. unfold decode_step.
  rewrite (dict_get_not_key _ _ H). reflexivity.
Qed.

Lemma decode_loop_not_key (message : list str) (code : str) :
  In code message -> ~ In code (keys letters) ->
  forall st,
    for_each (decode_step letters figures) message st = Raise KeyError.
Proof.
  intros Hin Hkey.
  induction message as [| c rest IH]; intros st; [destruct Hin |].
  simpl. destruct Hin as [-> | Hin].
  - rewrite (decode_step_not_key _ _ Hkey). reflexivity.
  - destruct (decode_step letters figures st c) as [st' | e] eqn:E; simpl.
    + apply IH. exact Hin.
    + rewrite (decode_step_raises _ _ _ E). reflexivity.
Qed.
End DecoderErrors.

Lemma keys_have_six_characters (codepage code : str) :
  In codepage (keys CODEPAGES) ->
  In code (keys (letters_of codepage)) -> List.length code = 6.
Proof.
  intros H K.
  assert (A : forallb (fun k => Nat.eqb (List.length k) 6)
                (keys (letters_of codepage)) = true)
    by (each_codepage H; vm_compute; reflexivity).
  rewrite forallb_forall in A. apply Nat.eqb_eq. apply A. exact K.
Qed.

(** C7: when a code sequence has an element that is not one of the patterns
    of the selected codepage's tables, a pattern of four or of six bits for
    one, [ita2_decode] raises for that call: it returns no string, partial
    or other. *)
Theorem decode_rejects_malformed_code (message : list str)
    (codepage : str) (letters_mode : bool) (code : str) :
  In codepage (keys CODEPAGES) ->
  In code message ->
  ~ In code (keys (letters_of codepage)) ->
  ita2_decode message codepage letters_mode = Raise KeyError /\
  forall text, ita2_decode message codepage letters_mode <> Ok text.
Proof.
  intros H Hin Hkey.
  assert (E : ita2_decode message codepage letters_mode = Raise KeyError).
  { rewrite (ita2_decode_known _ _ _ H).
    rewrite (decode_loop_not_key _ _ _ _ Hin Hkey). reflexivity. }
  split; [exact E |]. intros text. rewrite E. discriminate.
Qed.

Lemma decode_rejects_malformed_code_witness :
  ita2_decode [LTRS; py "000x11"; py "0110x11"; py "110x01"] (py "ita2std") true
  = Raise KeyError /\
  ita2_decode [FIGS; py "01x11"] (py "ita2us") false = Raise KeyError.
Proof.
  split.
  - apply (decode_rejects_malformed_code _ (py "ita2std") true (py "0110x11")).
    + simpl. left. reflexivity.
    + simpl. right. right. left. reflexivity.
    + intros K. vm_compute in K. decompose [or] K; discriminate || assumption.
  - apply (decode_rejects_malformed_code _ (py "ita2us") false (py "01x11")).
    + simpl. right. left. reflexivity.
    + simpl. right. left. reflexivity.
    + intros K. vm_compute in K. decompose [or] K; discriminate || assumption.
Defined.

(** ** Uppercasing *)

Lemma assoc_In {V} (c : char) (t : list (char * V)) (v : V) :
  assoc c t = Some v -> In (c, v) t.
Proof.
  induction t as [| [k w] rest IH]; simpl; intros H.
  - discriminate.
  - destruct (N.eqb k c) eqn:E.
    + apply N.eqb_eq in E. injection H as ->. subst. left. reflexivity.
    + right. apply IH. exact H.
Qed.

Lemma lower_case_is_mapped (c : char) :
  not_lower c = false -> assoc c unicode_simple_upper <> None.
Proof.
  intros H.
  assert (A : forallb (fun n =>
                match assoc (N.of_nat n) unicode_simple_upper with
                | Some _ => true
                | None => false
                end) (List.seq 97 26) = true) by (vm_compute; reflexivity).
  rewrite forallb_forall in A.
  unfold not_lower in H. apply orb_false_iff in H. destruct H as [H1 H2].
  apply N.ltb_ge in H1, H2.
  specialize (A (N.to_nat c)). rewrite N2Nat.id in A.
  destruct (assoc c unicode_simple_upper); [discriminate |].
  assert (K : false = true) by (apply A; apply in_seq; lia).
  discriminate.
Qed.

(** [str.upper] never yields an ASCII lowercase letter. *)
Lemma upper_char_not_lower (c u : char) :
  In u (upper_char c) -> not_lower u = true.
Proof.
  unfold upper_char.
  destruct (assoc c unicode_special_upper) as [us |] eqn:E1.
  - assert (A : forallb (fun kv => forallb not_lower (snd kv))
                  unicode_special_upper = true) by (vm_compute; reflexivity).
    rewrite forallb_forall in A.
    specialize (A _ (assoc_In _ _ _ E1)). simpl in A.
    rewrite forallb_forall in A. exact (A u).
  - destruct (assoc c unicode_simple_upper) as [u1 |] eqn:E2.
    + assert (A : forallb (fun kv => not_lower (snd kv))
                    unicode_simple_upper = true) by (vm_compute; reflexivity).
      rewrite forallb_forall in A.
      specialize (A _ (assoc_In _ _ _ E2)). simpl in A.
      intros [<- | []]. exact A.
    + intros [<- | []].
      destruct (not_lower c) eqn:N; [reflexivity |].
      exfalso. exact (lower_case_is_mapped c N E2).
Qed.

Lemma upper_not_lower (s : str) : Forall (fun u => not_lower u = true) (upper s).
Proof.
  apply Forall_forall. intros u H. unfold upper in H.
  apply in_flat_map in H. destruct H as [c [_ H]].
  exact (upper_char_not_lower c u H).
Qed.

Lemma upper_app (s1 s2 : str) : upper (s1 ++ s2) = upper s1 ++ upper s2.
Proof. unfold upper. apply flat_map_app. Qed.

Lemma upper_cons (c : char) (s : str) : upper (c :: s) = upper_char c ++ upper s.
Proof. reflexivity. Qed.

(** Every value of the code tables is a single character. *)
Lemma table_values_single (codepage : str) (letters_mode : bool) (v : str) :
  In codepage (keys CODEPAGES) ->
  in_values v (table_of codepage letters_mode) = true ->
  exists u, v = [u].
Proof.
  intros H K. apply in_values_In in K.
  assert (A : forallb (fun v => Nat.eqb (List.length v) 1)
                (values (table_of codepage letters_mode)) = true)
    by (each_codepage H; destruct letters_mode; vm_compute; reflexivity).
  rewrite forallb_forall in A. specialize (A v K). apply Nat.eqb_eq in A.
  destruct v as [| u [| w v]]; try discriminate. exists u. reflexivity.
Qed.

(** ** Shift economy *)

Section OneMode.
Variables letters figures : dict str.

Lemma encode_loop_one_mode (m : str) (mode : bool) :
  Forall (fun u => in_values [u] (if mode then letters else figures) = true) m ->
  forall res,
    encode_loop letters figures m (mode, res)
    = (mode, res ++ map (fun u => kfind (if mode then letters else figures) [u]) m).
Proof.
  induction 1 as [| u m Hu _ IH]; intros res.
  - simpl. rewrite app_nil_r. reflexivity.
  - rewrite encode_loop_cons.
    assert (E : encode_step letters figures (mode, res) u
                = (mode, res ++ [kfind (if mode then letters else figures) [u]])).
    { unfold encode_step. destruct mode; rewrite Hu; reflexivity. }
    rewrite E, IH, <- app_assoc. reflexivity.
Qed.
End OneMode.

Lemma upper_of_table_characters (codepage : str) (s : str)
    (inside : str -> bool) :
  In codepage (keys CODEPAGES) ->
  (forall v, inside v = true -> exists mode,
      in_values v (table_of codepage mode) = true) ->
  Forall (fun c => inside (upper_char c) = true) s ->
  List.length (upper s) = List.length s /\
  Forall (fun u => inside [u] = true) (upper s).
Proof.
  intros H sub. induction 1 as [| c s Hc _ [IHl IHf]].
  - split; [reflexivity | constructor].
  - destruct (sub _ Hc) as [mode Hv].
    destruct (table_values_single _ _ _ H Hv) as [u E].
    rewrite upper_cons, E. simpl. split.
    + rewrite IHl. reflexivity.
    + constructor; [rewrite <- E; exact Hc | exact IHf].
Qed.

Lemma character_code_is_no_shift (codepage : str) (mode : bool) (u : char) :
  In codepage (keys CODEPAGES) ->
  in_values [u] (table_of codepage mode) = true ->
  not_lower u = true ->
  kfind (table_of codepage mode) [u] <> LTRS /\
  kfind (table_of codepage mode) [u] <> FIGS.
Proof.
  intros H Hv Hu. apply in_values_In in Hv.
  assert (A : forallb (fun v =>
                match v with
                | [w] => negb (not_lower w)
                         || (negb (str_eqb (kfind (table_of codepage mode) v) LTRS)
                             && negb (str_eqb (kfind (table_of codepage mode) v) FIGS))
                | _ => true
                end) (values (table_of codepage mode)) = true)
    by (each_codepage H; destruct mode; vm_compute; reflexivity).
  rewrite forallb_forall in A. specialize (A _ Hv). cbv beta iota in A.
  rewrite Hu in A. simpl in A. apply andb_true_iff in A. destruct A as [A1 A2].
  apply negb_true_iff in A1, A2. apply str_eqb_neq in A1, A2.
  split; assumption.
Qed.

(** C5: for every non-empty string [s] each of whose characters, uppercased,
    is a character of the table of the initial mode, [ita2_encode] returns
    [len(s) + 1] codes: the priming shift code, then the code of each
    character in turn, none of them a shift code. *)
Theorem encode_within_one_mode (s codepage : str) (letters_mode : bool) :
  In codepage (keys CODEPAGES) ->
  s <> [] ->
  Forall (fun c =>
            in_values (upper_char c) (table_of codepage letters_mode) = true) s ->
  exists codes,
    ita2_encode s codepage letters_mode = Ok codes /\
    List.length codes = List.length s + 1 /\
    codes = shift_code letters_mode
            :: map (fun u => kfind (table_of codepage letters_mode) [u]) (upper s) /\
    Forall (fun code => code <> LTRS /\ code <> FIGS) (tl codes).
Proof.
  intros H _ Hs.
  destruct (upper_of_table_characters codepage s
              (fun v => in_values v (table_of codepage letters_mode)) H)
    as [Hlen Hup]; [intros v Hv; exists letters_mode; exact Hv | exact Hs |].
  exists (shift_code letters_mode
          :: map (fun u => kfind (table_of codepage letters_mode) [u]) (upper s)).
  split; [| split; [| split; [reflexivity |]]].
  - rewrite (ita2_encode_known _ _ _ H).
    rewrite encode_loop_one_mode; [destruct letters_mode; reflexivity |].
    destruct letters_mode; exact Hup.
  - cbn [List.length]. rewrite length_map, Hlen. lia.
  - cbn [tl]. apply Forall_forall. intros code Hcode.
    apply in_map_iff in Hcode. destruct Hcode as [u [<- Hu]].
    apply (character_code_is_no_shift _ _ _ H).
    + rewrite Forall_forall in Hup. exact (Hup u Hu).
    + pose proof (upper_not_lower s) as N. rewrite Forall_forall in N.
      exact (N u Hu).
Qed.

Lemma encode_within_one_mode_witness :
  exists codes,
    ita2_encode (py "Hello") (py "ita2std") true = Ok codes /\
    List.length codes = 5 + 1.
Proof.
  destruct (encode_within_one_mode (py "Hello") (py "ita2std") true)
    as [codes [E [L _]]].
  - simpl. left. reflexivity.
  - discriminate.
  - repeat (constructor; [vm_compute; reflexivity |]). constructor.
  - exists codes. split; [exact E | exact L].
Defined.

(** ** Round trip *)

Section RoundTrip.
Variables letters figures : dict str.
Hypothesis tables_ok : table_round_trip letters figures = true.

Local Abbreviation dstep := (decode_step letters figures).

Lemma decode_loop_cons (code : str) (codes : list str) (st : bool * str) :
  for_each dstep (code :: codes) st
  = (st' <- dstep st code ;; for_each dstep codes st').
Proof. reflexivity. Qed.

Lemma decode_step_acc (mode : bool) (text : str) (code : str) :
  dstep (mode, text) code
  = (st <- dstep (mode, []) code ;; Ok (fst st, text ++ snd st)).
Proof.
  unfold decode_step, bind.
  destruct (dict_get letters code) as [l | e1]; [| reflexivity].
  destruct (str_eqb l (py "l")); [cbn; rewrite app_nil_r; reflexivity |].
  destruct (dict_get figures code) as [f | e2]; [| reflexivity].
  destruct (str_eqb f (py "f")); [cbn; rewrite app_nil_r; reflexivity |].
  destruct mode; reflexivity.
Qed.

Lemma decode_loop_acc (codes : list str) : forall (mode : bool) (text : str),
  for_each dstep codes (mode, text)
  = (st <- for_each dstep codes (mode, []) ;; Ok (fst st, text ++ snd st)).
Proof.
  induction codes as [| code codes IH]; intros mode text.
  - cbn. rewrite app_nil_r. reflexivity.
  - rewrite !decode_loop_cons, decode_step_acc.
    destruct (dstep (mode, []) code) as [[m1 t1] | e]; [| reflexivity].
    cbn [bind fst snd]. rewrite (IH m1 (text ++ t1)), (IH m1 t1).
    destruct (for_each dstep codes (m1, [])) as [[m2 t2] | e];
      [| reflexivity].
    cbn [bind fst snd]. rewrite app_assoc. reflexivity.
Qed.

Lemma decode_loop_app (xs ys : list str) (st : bool * str) :
  for_each dstep (xs ++ ys) st
  = (st' <- for_each dstep xs st ;; for_each dstep ys st').
Proof.
  revert st. induction xs as [| x xs IH]; intros st; [reflexivity |].
  cbn [app for_each]. destruct (dstep st x); [apply IH | reflexivity].
Qed.

Lemma char_round_trip_spec (mode : bool) (u : char) :
  char_round_trip letters figures mode u = true ->
  for_each dstep (snd (encode_step letters figures (mode, []) u)) (mode, [])
  = Ok (fst (encode_step letters figures (mode, []) u), [u]).
Proof.
  unfold char_round_trip.
  destruct (encode_step letters figures (mode, []) u) as [mode' codes].
  cbn [fst snd].
  destruct (for_each (decode_step letters figures) codes (mode, []))
    as [[m text] | e]; [| discriminate].
  intros H. apply andb_true_iff in H. destruct H as [H1 H2].
  apply Bool.eqb_prop in H1. apply str_eqb_eq in H2. subst. reflexivity.
Qed.

Lemma representable_round_trip (mode : bool) (u : char) :
  in_values [u] letters || in_values [u] figures = true ->
  not_lower u = true ->
  char_round_trip letters figures mode u = true.
Proof.
  intros Hin Hu.
  assert (K : In [u] (values letters ++ values figures)).
  { apply in_or_app. apply orb_true_iff in Hin.
    destruct Hin as [Hin | Hin]; [left | right]; apply in_values_In; exact Hin. }
  unfold table_round_trip in tables_ok. rewrite forallb_forall in tables_ok.
  specialize (tables_ok _ K). cbv beta iota in tables_ok.
  rewrite Hu in tables_ok. cbn [negb orb] in tables_ok.
  apply andb_true_iff in tables_ok. destruct mode; apply tables_ok.
Qed.

(** The decoder undoes the encoder's loop, whatever the mode they share
    at its start. *)
Lemma decode_encode_loop (m : str) :
  Forall (fun u => in_values [u] letters || in_values [u] figures = true) m ->
  Forall (fun u => not_lower u = true) m ->
  forall mode,
    for_each dstep (snd (encode_loop letters figures m (mode, []))) (mode, [])
    = Ok (fst (encode_loop letters figures m (mode, [])), m).
Proof.
  induction m as [| u m IH]; intros Hin Hlow mode; [reflexivity |].
  inversion Hin as [| ? ? Hu Hin']; subst.
  inversion Hlow as [| ? ? Lu Hlow']; subst.
  rewrite encode_loop_cons.
  pose proof (char_round_trip_spec mode u
                (representable_round_trip mode u Hu Lu)) as step.
  destruct (encode_step letters figures (mode, []) u) as [m1 r1].
  cbn [fst snd] in step.
  rewrite encode_loop_acc. cbn [fst snd].
  rewrite decode_loop_app, step. cbn [bind].
  rewrite decode_loop_acc, (IH Hin' Hlow' m1). reflexivity.
Qed.
End RoundTrip.

Lemma codepage_round_trip (codepage : str) :
  In codepage (keys CODEPAGES) ->
  table_round_trip (letters_of codepage) (figures_of codepage) = true.
Proof. intros H. each_codepage H; vm_compute; reflexivity. Qed.

Lemma decode_priming_code (codepage : str) (letters_mode : bool) (text : str) :
  In codepage (keys CODEPAGES) ->
  decode_step (letters_of codepage) (figures_of codepage)
    (letters_mode, text) (shift_code letters_mode)
  = Ok (letters_mode, text).
Proof. intros H. each_codepage H; destruct letters_mode; reflexivity. Qed.

Lemma round_trip_of_message (s codepage : str) (letters_mode : bool) :
  In codepage (keys CODEPAGES) ->
  Forall (fun u => in_values [u] (letters_of codepage)
                   || in_values [u] (figures_of codepage) = true) (upper s) ->
  exists codes,
    ita2_encode s codepage letters_mode = Ok codes /\
    ita2_decode codes codepage letters_mode = Ok (upper s).
Proof.
  intros H Hs.
  exists (shift_code letters_mode
          :: snd (encode_loop (letters_of codepage) (figures_of codepage)
                    (upper s) (letters_mode, []))).
  split.
  - rewrite (ita2_encode_known _ _ _ H), encode_loop_acc. reflexivity.
  - rewrite (ita2_decode_known _ _ _ H), decode_loop_cons.
    rewrite (decode_priming_code _ _ _ H). cbn [bind].
    rewrite (decode_encode_loop _ _ (codepage_round_trip _ H) _ Hs
               (upper_not_lower s)).
    reflexivity.
Qed.

(** C1: for every codepage and initial mode, and every string [s] whose
    uppercased form has only characters of the codepage's letters or
    figures table, decoding what the encoder returns gives [s.upper()]. *)
Theorem decode_encode_round_trip (s codepage : str) (letters_mode : bool) :
  In codepage (keys CODEPAGES) ->
  Forall (fun u => in_values [u] (letters_of codepage)
                   || in_values [u] (figures_of codepage) = true) (upper s) ->
  exists codes,
    ita2_encode s codepage letters_mode = Ok codes /\
    ita2_decode codes codepage letters_mode = Ok (upper s).
Proof. apply round_trip_of_message. Qed.

Lemma decode_encode_round_trip_witness :
  exists codes,
    ita2_encode (py "Route 66, mile 5!") (py "ita2us") false = Ok codes /\
    ita2_decode codes (py "ita2us") false = Ok (py "ROUTE 66, MILE 5!").
Proof.
  apply (decode_encode_round_trip (py "Route 66, mile 5!") (py "ita2us") false).
  - simpl. right. left. reflexivity.
  - vm_compute. repeat constructor.
Defined.

(** The same when the condition is read character by character: each
    character of [s] uppercases to an entry of one of the two tables. *)
Lemma round_trip_of_characters (s codepage : str) (letters_mode : bool) :
  In codepage (keys CODEPAGES) ->
  Forall (fun c => in_values (upper_char c) (letters_of codepage)
                   || in_values (upper_char c) (figures_of codepage) = true) s ->
  exists codes,
    ita2_encode s codepage letters_mode = Ok codes /\
    ita2_decode codes codepage letters_mode = Ok (upper s).
Proof.
  intros H Hs. apply (round_trip_of_message _ _ _ H).
  apply (upper_of_table_characters codepage s
           (fun v => in_values v (letters_of codepage)
                     || in_values v (figures_of codepage)) H); [| exact Hs].
  intros v Hv. apply orb_true_iff in Hv.
  destruct Hv as [Hv | Hv]; [exists true | exists false]; exact Hv.
Qed.

(** ** Characters of neither table *)

Lemma str_eqb_sym (a b : str) : str_eqb a b = str_eqb b a.
Proof.
  destruct (str_eqb b a) eqn:E.
  - apply str_eqb_eq in E. subst. apply str_eqb_refl.
  - apply str_eqb_neq in E. apply str_eqb_neq. congruence.
Qed.

Lemma kfind_absent (d : dict str) (v : str) :
  in_values v d = false -> kfind d v = [].
Proof.
  unfold in_values, values.
  induction d as [| [key val] rest IH]; simpl; intros H; [reflexivity |].
  apply orb_false_iff in H. destruct H as [H1 H2].
  rewrite str_eqb_sym, H1. apply IH. exact H2.
Qed.

Lemma encode_step_unknown (letters figures : dict str) (mode : bool)
    (res : list str) (u : char) :
  in_values [u] letters = false ->
  in_values [u] figures = false ->
  encode_step letters figures (mode, res) u
  = (negb mode,
     res ++ [kfind (if mode then figures else letters)
               (if mode then py "f" else py "l"); []]).
Proof.
  intros HL HF. unfold encode_step.
  destruct mode; rewrite ?HL, ?HF, ?(kfind_absent _ _ HL), ?(kfind_absent _ _ HF);
    cbn [negb]; rewrite <- app_assoc; reflexivity.
Qed.

Lemma shift_lookup (codepage : str) (mode : bool) :
  In codepage (keys CODEPAGES) ->
  kfind (if mode then figures_of codepage else letters_of codepage)
    (if mode then py "f" else py "l")
  = shift_code (negb mode).
Proof. intros H. each_codepage H; destruct mode; reflexivity. Qed.

(** C2, as the code has it: a character whose uppercase form is one
    character of neither table is not skipped.  No error is raised; the
    encoder flips its shift mode and appends two entries, the shift code of
    the new mode and the empty string that [kfind] returns for a value it
    does not find; the characters after it are encoded from the new mode. *)
Theorem unknown_character_flips_mode (s1 s2 : str) (c u : char)
    (codepage : str) (letters_mode : bool) :
  In codepage (keys CODEPAGES) ->
  upper_char c = [u] ->
  in_values [u] (letters_of codepage) = false ->
  in_values [u] (figures_of codepage) = false ->
  exists (mode1 : bool) (before rest : list str),
    encode_loop (letters_of codepage) (figures_of codepage) (upper s1)
      (letters_mode, [shift_code letters_mode]) = (mode1, before) /\
    ita2_encode s1 codepage letters_mode = Ok before /\
    ita2_encode (s1 ++ [c]) codepage letters_mode
    = Ok (before ++ [shift_code (negb mode1); []]) /\
    ita2_encode s2 codepage (negb mode1)
    = Ok (shift_code (negb mode1) :: rest) /\
    ita2_encode (s1 ++ c :: s2) codepage letters_mode
    = Ok (before ++ [shift_code (negb mode1); []] ++ rest).
Proof.
  intros H Hc HL HF.
  destruct (encode_loop (letters_of codepage) (figures_of codepage) (upper s1)
              (letters_mode, [shift_code letters_mode]))
    as [mode1 before] eqn:E1.
  exists mode1, before,
    (snd (encode_loop (letters_of codepage) (figures_of codepage) (upper s2)
            (negb mode1, []))).
  split; [reflexivity |].
  split; [rewrite (ita2_encode_known _ _ _ H), E1; reflexivity |].
  assert (step : encode_loop (letters_of codepage) (figures_of codepage)
                   (upper s1 ++ [u]) (letters_mode, [shift_code letters_mode])
                 = (negb mode1, before ++ [shift_code (negb mode1); []])).
  { rewrite encode_loop_app, E1, encode_loop_cons.
    rewrite (encode_step_unknown _ _ _ _ _ HL HF), (shift_lookup _ _ H).
    reflexivity. }
  split; [| split].
  - rewrite (ita2_encode_known _ _ _ H), upper_app, upper_cons, Hc.
    cbn [upper flat_map app]. rewrite step. reflexivity.
  - rewrite (ita2_encode_known _ _ _ H), encode_loop_acc. reflexivity.
  - rewrite (ita2_encode_known _ _ _ H), upper_app, upper_cons, Hc.
    rewrite (app_assoc (upper s1) [u] (upper s2)).
    rewrite encode_loop_app, step, encode_loop_acc.
    cbn [snd]. rewrite <- app_assoc. reflexivity.
Qed.

Lemma unknown_character_flips_mode_witness :
  ita2_encode (py "A@") (py "ita2std") true
  = Ok ([LTRS; py "000x11"] ++ [FIGS; []]) /\
  ita2_encode (py "A@B") (py "ita2std") true
  = Ok ([LTRS; py "000x11"] ++ [FIGS; []] ++ [LTRS; py "110x01"]).
Proof.
  destruct (unknown_character_flips_mode (py "A") (py "B") 64%N 64%N
              (py "ita2std") true)
    as [mode1 [before [rest [E1 [_ [E3 [E4 E5]]]]]]].
  - simpl. left. reflexivity.
  - vm_compute. reflexivity.
  - vm_compute. reflexivity.
  - vm_compute. reflexivity.
  - vm_compute in E1. injection E1 as <- <-.
    vm_compute in E4. injection E4 as <-.
    split; [exact E3 | exact E5].
Defined.

(** The claim C2 fails on ["A@B"]: ['@'] is in neither table of the
    standard codepage, and the codes returned for ["A@B"] are not those
    returned for ["AB"]. *)
Lemma unknown_character_is_not_skipped :
  in_values (upper (py "@")) (letters_of (py "ita2std")) = false /\
  in_values (upper (py "@")) (figures_of (py "ita2std")) = false /\
  ita2_encode (py "A@B") (py "ita2std") true
  = Ok [LTRS; py "000x11"; FIGS; []; LTRS; py "110x01"] /\
  ita2_encode (py "AB") (py "ita2std") true
  = Ok [LTRS; py "000x11"; py "110x01"] /\
  ita2_encode (py "A@B") (py "ita2std") true
  <> ita2_encode (py "AB") (py "ita2std") true.
Proof.
  repeat split; try (vm_compute; reflexivity).
  vm_compute. discriminate.
Qed.

(** ** The tape *)

Lemma draw_cell_out (i : nat) (code_j : str) (out : str) :
  draw_cell i code_j out
  = (out ++ fst (draw_cell i code_j []), snd (draw_cell i code_j [])).
Proof.
  unfold draw_cell.
  destruct (subscript code_j (5 - i)) as [c | e];
    [| cbn; rewrite app_nil_r; reflexivity].
  repeat match goal with
         | |- context [if ?b then _ else _] => destruct b
         end; cbn; rewrite ?app_nil_r; reflexivity.
Qed.

Lemma draw_cell_well_formed (i : nat) (code_j : str) (out : str) :
  i < 6 -> well_formed code_j ->
  draw_cell i code_j out = (out ++ mark (5 - i) code_j ++ py " ", None).
Proof.
  intros Hi Hw.
  assert (A : forallb (fun k => forallb (fun r => cell_drawn r k) (List.seq 0 6))
                (keys ita2_letters) = true) by (vm_compute; reflexivity).
  rewrite forallb_forall in A. specialize (A _ Hw).
  rewrite forallb_forall in A.
  assert (Hin : In i (List.seq 0 6)) by (apply in_seq; lia).
  specialize (A _ Hin). unfold cell_drawn in A.
  rewrite draw_cell_out.
  destruct (draw_cell i code_j []) as [drawn [e |]]; [discriminate |].
  apply str_eqb_eq in A. subst. reflexivity.
Qed.

Lemma draw_cells_well_formed (i : nat) (code : list str) :
  i < 6 -> Forall well_formed code ->
  forall out,
    for_io (draw_cell i) code out
    = (out ++ flat_map (fun code_j => mark (5 - i) code_j ++ py " ") code, None).
Proof.
  intros Hi. induction 1 as [| code_j code Hw _ IH]; intros out.
  - cbn. rewrite app_nil_r. reflexivity.
  - cbn [for_io flat_map]. unfold and_then.
    rewrite (draw_cell_well_formed _ _ _ Hi Hw), IH.
    rewrite <- !app_assoc. reflexivity.
Qed.

Lemma draw_row_well_formed (i : nat) (code : list str) (out : str) :
  i < 6 -> Forall well_formed code ->
  draw_row code i out = (out ++ tape_row code (5 - i), None).
Proof.
  intros Hi Hw. unfold draw_row, and_then, print at 1.
  rewrite (draw_cells_well_formed _ _ Hi Hw). unfold print, tape_row.
  rewrite <- !app_assoc. reflexivity.
Qed.

Lemma str_mul_char (c : char) (n : nat) (k : Z) :
  k = Z.of_nat n -> str_mul [c] k = repeat c n.
Proof.
  intros ->. unfold str_mul. rewrite Nat2Z.id.
  induction n as [| n IH]; [reflexivity |]. cbn. rewrite IH. reflexivity.
Qed.

Lemma mark_length (position : nat) (code_j : str) :
  List.length (mark position code_j) = 1.
Proof.
  unfold mark. destruct (Nat.eqb position 3); [reflexivity |].
  destruct (str_eqb _ _); reflexivity.
Qed.

Lemma tape_row_length (code : list str) (position : nat) :
  List.length (tape_row code position) = 2 * List.length code + 2 + 1.
Proof.
  assert (E : List.length (flat_map (fun code_j => mark position code_j ++ py " ") code)
              = 2 * List.length code).
  { induction code as [| c code IH]; [reflexivity |].
    cbn [flat_map]. rewrite !length_app, IH, mark_length.
    change (List.length (py " ")) with 1. cbn [List.length]. lia. }
  unfold tape_row. rewrite !length_app, E.
  change (List.length (py " ")) with 1. change (List.length LF) with 1. lia.
Qed.

(** The patterns have a bit, [0] or [1], at positions 0, 1, 2, 4 and 5 and
    an [x] at position 3. *)
Lemma well_formed_pattern (code_j : str) :
  well_formed code_j ->
  nth 3 code_j 0%N = 120%N /\
  forall position, In position [0; 1; 2; 4; 5] ->
    nth position code_j 0%N = 48%N \/ nth position code_j 0%N = 49%N.
Proof.
  intros Hw.
  assert (A : forallb (fun k =>
                N.eqb (nth 3 k 0%N) 120
                && forallb (fun p => N.eqb (nth p k 0%N) 48 || N.eqb (nth p k 0%N) 49)
                     [0; 1; 2; 4; 5]) (keys ita2_letters) = true)
    by (vm_compute; reflexivity).
  rewrite forallb_forall in A. specialize (A _ Hw).
  apply andb_true_iff in A. destruct A as [A1 A2].
  split; [apply N.eqb_eq; exact A1 |].
  intros position Hp. rewrite forallb_forall in A2. specialize (A2 _ Hp).
  apply orb_true_iff in A2. destruct A2 as [A2 | A2]; apply N.eqb_eq in A2;
    [left | right]; exact A2.
Qed.

(** C8: for a well-formed code sequence [ita2_draw] prints, between two
    border lines, one row for each of the five bit positions, with a set
    bit punched and a clear bit blank, and the row of the third mark, that
    of position 3, between those of bits 4 and 2; the border and every row
    are [2 * len(code) + 2] characters wide. *)
Theorem draw_tape (code : list str) (out : str) :
  Forall well_formed code ->
  ita2_draw code out
  = (out ++ tape_border code
         ++ tape_row code 5 ++ tape_row code 4 ++ tape_row code 3
         ++ tape_row code 2 ++ tape_row code 1 ++ tape_row code 0
         ++ tape_border code, None) /\
  List.length (tape_border code) = 2 * List.length code + 2 + 1 /\
  (forall position,
     List.length (tape_row code position) = 2 * List.length code + 2 + 1) /\
  tape_row code 3
  = py " " ++ flat_map (fun _ => [9679%N] ++ py " ") code ++ py " " ++ LF /\
  Forall (fun code_j =>
            nth 3 code_j 0%N = 120%N /\
            forall position, In position [0; 1; 2; 4; 5] ->
              nth position code_j 0%N = 48%N \/ nth position code_j 0%N = 49%N)
    code.
Proof.
  intros Hw. split; [| split; [| split; [| split]]];
    [| | | | exact (Forall_impl _ well_formed_pattern Hw)].
  - unfold ita2_draw. cbv zeta.
    rewrite (str_mul_char 9473%N (2 * List.length code + 2)) by lia.
    unfold and_then at 1. unfold print at 1.
    unfold and_then at 1. cbn [List.seq for_io].
    unfold and_then.
    rewrite !draw_row_well_formed by (lia || exact Hw).
    cbn [skip Nat.sub]. unfold print, tape_border.
    rewrite <- !app_assoc. reflexivity.
  - unfold tape_border. rewrite length_app, repeat_length. cbn. lia.
  - apply tape_row_length.
  - reflexivity.
Qed.

Lemma draw_tape_witness :
  ita2_draw [py "000x11"] []
  = ([9473; 9473; 9473; 9473; 10;
      32; 11044; 32; 32; 10;
      32; 11044; 32; 32; 10;
      32; 9679; 32; 32; 10;
      32; 32; 32; 32; 10;
      32; 32; 32; 32; 10;
      32; 32; 32; 32; 10;
      9473; 9473; 9473; 9473; 10]%N, None).
Proof.
  destruct (draw_tape [py "000x11"] []) as [E _].
  - repeat constructor; vm_compute; tauto.
  - rewrite E. vm_compute. reflexivity.
Defined.

(** ** leftpad *)

Lemma string_of_uint_nonnil (d : Decimal.uint) :
  d <> Decimal.Nil -> NilEmpty.string_of_uint d <> EmptyString.
Proof. destruct d; intros H; try discriminate. contradiction. Qed.

(** [str(n)] is never empty. *)
Lemma str_of_int_first (n : Z) : exists c rest, str_of_int n = c :: rest.
Proof.
  unfold str_of_int.
  assert (E : exists a rest, NilEmpty.string_of_int (Z.to_int n) = String a rest).
  { destruct n as [| p | p]; cbn.
    - eexists. eexists. reflexivity.
    - pose proof (string_of_uint_nonnil _ (DecimalPos.Unsigned.to_uint_nonnil p)) as K.
      destruct (NilEmpty.string_of_uint (Pos.to_uint p));
        [contradiction | eexists; eexists; reflexivity].
    - eexists. eexists. reflexivity. }
  destruct E as [a [rest ->]]. cbn. eexists. eexists. reflexivity.
Qed.

Lemma str_of_int_negative (n : Z) :
  (n < 0)%Z -> nth_error (str_of_int n) 0 = Some 45%N.
Proof. destruct n; try lia. intros _. reflexivity. Qed.

Lemma skipn_padding {A} (pad s : list A) :
  skipn (List.length (pad ++ s) - List.length s) (pad ++ s) = s.
Proof.
  rewrite length_app, Nat.add_sub.
  induction pad as [| x pad IH]; [reflexivity | exact IH].
Qed.

(** C10: for every string, every integer [length] and every [fill] that is
    a non-empty string or an integer, [leftpad] returns a string of
    [max(length, len(string))] characters that ends with [string]; what
    comes before is the first character of [fill], or of [str(fill)] for an
    integer, repeated; when [length <= len(string)] the result is [string]. *)
Theorem leftpad_pads_on_the_left (string : str) (length : Z)
    (fill : fill_value) :
  usable_fill fill ->
  exists (c : char) (padded : str),
    leftpad string length fill = Ok padded /\
    nth_error (fill_text fill) 0 = Some c /\
    Z.of_nat (List.length padded)
    = Z.max length (Z.of_nat (List.length string)) /\
    skipn (List.length padded - List.length string) padded = string /\
    padded = repeat c (List.length padded - List.length string) ++ string /\
    ((length <= Z.of_nat (List.length string))%Z -> padded = string).
Proof.
  intros Hfill.
  assert (first : exists c rest, fill_text fill = c :: rest).
  { destruct fill as [s | n |]; cbn in *.
    - destruct s as [| c rest]; [contradiction | eexists; eexists; reflexivity].
    - apply str_of_int_first.
    - contradiction. }
  destruct first as [c [rest E]].
  set (pad := Z.to_nat ((if (length <=? Z.of_nat (List.length string))%Z
                         then Z.of_nat (List.length string) else length)
                        - Z.of_nat (List.length string))).
  exists c, (repeat c pad ++ string).
  assert (run : leftpad string length fill = Ok (repeat c pad ++ string)).
  { unfold leftpad. cbv zeta.
    destruct fill as [s | n |]; cbn [fill_text] in E; [| | contradiction];
      rewrite E; cbn [subscript nth_error bind];
      rewrite (str_mul_char c pad); try reflexivity;
      unfold pad; rewrite Z2Nat.id; try reflexivity;
      destruct (Z.leb_spec length (Z.of_nat (List.length string))); lia. }
  assert (len : List.length (repeat c pad ++ string) - List.length string = pad)
    by (rewrite length_app, repeat_length; lia).
  split; [exact run |].
  split; [rewrite E; reflexivity |].
  split; [| split; [| split]].
  - rewrite length_app, repeat_length. unfold pad.
    destruct (Z.leb_spec length (Z.of_nat (List.length string))); lia.
  - apply skipn_padding.
  - rewrite len. reflexivity.
  - intros Hle. unfold pad.
    destruct (Z.leb_spec length (Z.of_nat (List.length string))); [| lia].
    rewrite Z.sub_diag. reflexivity.
Qed.

Lemma leftpad_pads_on_the_left_witness :
  exists (c : char) (padded : str),
    leftpad (py "foo") 5 (FillInt (-12)) = Ok padded /\
    nth_error (str_of_int (-12)) 0 = Some c /\
    Z.of_nat (List.length padded) = 5%Z.
Proof.
  destruct (leftpad_pads_on_the_left (py "foo") 5 (FillInt (-12)))
    as [c [padded [E [F [L _]]]]].
  - simpl. exact I.
  - exists c, padded. split; [exact E |]. split; [exact F | exact L].
Defined.

(** The demonstrations of [leftpad.py]. *)
Example leftpad_tests :
  leftpad [] 0 (FillStr (py " ")) = Ok [] /\
  leftpad (py "foo") 2 (FillStr (py " ")) = Ok (py "foo") /\
  leftpad (py "foo") (-2) (FillStr (py " ")) = Ok (py "foo") /\
  leftpad (py "foo") 3 (FillStr (py " ")) = Ok (py "foo") /\
  leftpad (py "foo") 4 (FillStr (py "_")) = Ok (py "_foo") /\
  leftpad (py "foo") 4 (FillInt 12) = Ok (py "1foo") /\
  leftpad (py "foo") 4 (FillInt (-12)) = Ok (py "-foo") /\
  leftpad (py "foo") 4 (FillStr (py "abc")) = Ok (py "afoo").
Proof. repeat split; vm_compute; reflexivity. Qed.

(** * Further properties of the encoder *)

(** X1: An unknown codepage: the subscript [CODEPAGES[codepage]] raises
    [KeyError] in the encoder and in the decoder, whatever the message. *)
Theorem unknown_codepage_raises (s : str) (message : list str)
    (codepage : str) (letters_mode : bool) :
  ~ In codepage (keys CODEPAGES) ->
  ita2_encode s codepage letters_mode = Raise KeyError /\
  ita2_decode message codepage letters_mode = Raise KeyError.
Proof.
  intros H. unfold ita2_encode, ita2_decode.
  rewrite (dict_get_not_key _ _ H). split; reflexivity.
Qed.

Lemma unknown_codepage_raises_witness :
  ita2_encode (py "SOS") (py "ita2") true = Raise KeyError /\
  ita2_decode [LTRS] (py "ita2") true = Raise KeyError.
Proof.
  apply (unknown_codepage_raises (py "SOS") [LTRS] (py "ita2") true).
  intros K. vm_compute in K. decompose [or] K; discriminate || assumption.
Defined.

Lemma encode_loop_length (letters figures : dict str) (m : str) :
  forall mode,
    List.length m
    <= List.length (snd (encode_loop letters figures m (mode, [])))
    <= 2 * List.length m.
Proof.
  induction m as [| u m IH]; intros mode; [cbn; lia |].
  rewrite encode_loop_cons.
  assert (S1 : exists m1 r1,
             encode_step letters figures (mode, []) u = (m1, r1) /\
             1 <= List.length r1 <= 2).
  { unfold encode_step.
    destruct mode;
      [destruct (in_values [u] letters) | destruct (in_values [u] figures)];
      eexists; eexists; (split; [reflexivity | cbn; lia]). }
  destruct S1 as [m1 [r1 [E Hr]]]. rewrite E, encode_loop_acc.
  cbn [snd]. rewrite length_app. specialize (IH m1). cbn [List.length]. lia.
Qed.

(** X2: The encoder returns at least one code per character of the uppercased
    message, and at most two, after the priming code; this holds for
    characters of neither table as well. *)
Theorem encode_length_bounds (s codepage : str) (letters_mode : bool) :
  In codepage (keys CODEPAGES) ->
  exists codes,
    ita2_encode s codepage letters_mode = Ok codes /\
    List.length (upper s) + 1 <= List.length codes
    <= 2 * List.length (upper s) + 1.
Proof.
  intros H. eexists. split.
  - rewrite (ita2_encode_known _ _ _ H), encode_loop_acc. reflexivity.
  - cbn [snd]. rewrite length_app.
    pose proof (encode_loop_length (letters_of codepage) (figures_of codepage)
                  (upper s) letters_mode) as B.
    cbn [List.length]. lia.
Qed.

Lemma encode_length_bounds_witness :
  exists codes,
    ita2_encode (py "A1B2") (py "ita2std") true = Ok codes /\
    List.length (upper (py "A1B2")) + 1 <= List.length codes
    <= 2 * List.length (upper (py "A1B2")) + 1.
Proof.
  apply (encode_length_bounds (py "A1B2") (py "ita2std") true).
  simpl. left. reflexivity.
Defined.

(** Uppercasing an uppercased string changes nothing. *)
Lemma upper_char_fixed (c u : char) :
  In u (upper_char c) -> upper_char u = [u].
Proof.
  assert (fixed : forall w,
            assoc w unicode_special_upper = None ->
            assoc w unicode_simple_upper = None -> upper_char w = [w]).
  { intros w E1 E2. unfold upper_char. rewrite E1, E2. reflexivity. }
  assert (A1 : forallb (fun kv =>
                 forallb (fun w =>
                   match assoc w unicode_special_upper,
                         assoc w unicode_simple_upper with
                   | None, None => true
                   | _, _ => false
                   end) (snd kv)) unicode_special_upper = true)
    by (vm_compute; reflexivity).
  assert (A2 : forallb (fun kv =>
                 match assoc (snd kv) unicode_special_upper,
                       assoc (snd kv) unicode_simple_upper with
                 | None, None => true
                 | _, _ => false
                 end) unicode_simple_upper = true)
    by (vm_compute; reflexivity).
  rewrite forallb_forall in A1, A2.
  unfold upper_char at 1.
  destruct (assoc c unicode_special_upper) as [us |] eqn:E1.
  - intros Hu. specialize (A1 _ (assoc_In _ _ _ E1)). cbn [snd] in A1.
    rewrite forallb_forall in A1. specialize (A1 _ Hu).
    destruct (assoc u unicode_special_upper) eqn:F1; [discriminate |].
    destruct (assoc u unicode_simple_upper) eqn:F2; [discriminate |].
    apply fixed; assumption.
  - destruct (assoc c unicode_simple_upper) as [u1 |] eqn:E2.
    + intros [<- | []]. specialize (A2 _ (assoc_In _ _ _ E2)). cbn [snd] in A2.
      destruct (assoc u1 unicode_special_upper) eqn:F1; [discriminate |].
      destruct (assoc u1 unicode_simple_upper) eqn:F2; [discriminate |].
      apply fixed; assumption.
    + intros [<- | []]. apply fixed; assumption.
Qed.

Lemma upper_idempotent (s : str) : upper (upper s) = upper s.
Proof.
  assert (G : forall m, (forall u, In u m -> upper_char u = [u]) -> upper m = m).
  { induction m as [| u m IH]; intros Hm; [reflexivity |].
    rewrite upper_cons, (Hm u (or_introl eq_refl)), IH; [reflexivity |].
    intros w Hw. apply Hm. right. exact Hw. }
  apply G. intros u Hu. unfold upper in Hu. apply in_flat_map in Hu.
  destruct Hu as [c [_ Hu]]. exact (upper_char_fixed c u Hu).
Qed.

(** X3: The encoder does not see the case of its input: the uppercased message
    has the codes of the message, on every codepage name and in every
    mode. *)
Theorem encode_ignores_case (s codepage : str) (letters_mode : bool) :
  ita2_encode (upper s) codepage letters_mode
  = ita2_encode s codepage letters_mode.
Proof. unfold ita2_encode. rewrite upper_idempotent. reflexivity. Qed.

(** X4: The encoder composes: the codes of [s1 + s2] are the codes of [s1]
    followed by the codes of [s2] encoded from the mode [s1] ends in,
    without their priming code. *)
Theorem encode_concatenation (s1 s2 codepage : str) (letters_mode : bool) :
  In codepage (keys CODEPAGES) ->
  exists (mode1 : bool) (codes1 codes2 : list str),
    encode_loop (letters_of codepage) (figures_of codepage) (upper s1)
      (letters_mode, [shift_code letters_mode]) = (mode1, codes1) /\
    ita2_encode s1 codepage letters_mode = Ok codes1 /\
    ita2_encode s2 codepage mode1 = Ok (shift_code mode1 :: codes2) /\
    ita2_encode (s1 ++ s2) codepage letters_mode = Ok (codes1 ++ codes2).
Proof.
  intros H.
  destruct (encode_loop (letters_of codepage) (figures_of codepage) (upper s1)
              (letters_mode, [shift_code letters_mode]))
    as [mode1 codes1] eqn:E1.
  exists mode1, codes1,
    (snd (encode_loop (letters_of codepage) (figures_of codepage) (upper s2)
            (mode1, []))).
  split; [reflexivity |].
  split; [rewrite (ita2_encode_known _ _ _ H), E1; reflexivity |].
  split.
  - rewrite (ita2_encode_known _ _ _ H), encode_loop_acc. reflexivity.
  - rewrite (ita2_encode_known _ _ _ H), upper_app, encode_loop_app, E1.
    rewrite encode_loop_acc. reflexivity.
Qed.

Lemma encode_concatenation_witness :
  ita2_encode (py "AB12") (py "ita2std") true
  = Ok ([LTRS; py "000x11"; py "110x01"; FIGS; py "101x11"]
          ++ [py "100x11"]).
Proof.
  destruct (encode_concatenation (py "AB1") (py "2") (py "ita2std") true)
    as [mode1 [codes1 [codes2 [E1 [_ [E3 E4]]]]]].
  - simpl. left. reflexivity.
  - vm_compute in E1. injection E1 as <- <-.
    vm_compute in E3. injection E3 as <-. exact E4.
Defined.

Lemma kfind_key (d : dict str) (v : str) :
  in_values v d = true -> In (kfind d v) (keys d).
Proof.
  unfold in_values, values, keys.
  induction d as [| [key val] rest IH]; simpl; intros H; [discriminate |].
  rewrite str_eqb_sym. destruct (str_eqb v val); [left; reflexivity |].
  right. apply IH. exact H.
Qed.

Lemma table_keys (codepage : str) (mode : bool) :
  In codepage (keys CODEPAGES) ->
  keys (table_of codepage mode) = keys ita2_letters.
Proof. intros H. each_codepage H; destruct mode; reflexivity. Qed.

Lemma shift_code_well_formed (mode : bool) : well_formed (shift_code mode).
Proof.
  unfold well_formed. destruct mode; vm_compute; tauto.
Qed.

Lemma encode_step_well_formed (codepage : str) (mode : bool) (u : char) :
  In codepage (keys CODEPAGES) ->
  in_values [u] (letters_of codepage) || in_values [u] (figures_of codepage)
  = true ->
  Forall well_formed
    (snd (encode_step (letters_of codepage) (figures_of codepage) (mode, []) u)).
Proof.
  intros H Hu.
  assert (K : forall b, in_values [u] (table_of codepage b) = true ->
                 well_formed (kfind (table_of codepage b) [u])).
  { intros b Hb. unfold well_formed. rewrite <- (table_keys codepage b H).
    apply kfind_key. exact Hb. }
  unfold encode_step.
  destruct mode.
  - destruct (in_values [u] (letters_of codepage)) eqn:EL; cbn [snd app].
    + constructor; [exact (K true EL) | constructor].
    + rewrite (shift_lookup codepage true H).
      constructor; [apply shift_code_well_formed |].
      constructor; [exact (K false Hu) | constructor].
  - destruct (in_values [u] (figures_of codepage)) eqn:EF; cbn [snd app].
    + constructor; [exact (K false EF) | constructor].
    + rewrite (shift_lookup codepage false H).
      constructor; [apply shift_code_well_formed |].
      rewrite orb_false_r in Hu.
      constructor; [exact (K true Hu) | constructor].
Qed.

Lemma encode_loop_well_formed (codepage : str) (m : str) :
  In codepage (keys CODEPAGES) ->
  Forall (fun u => in_values [u] (letters_of codepage)
                   || in_values [u] (figures_of codepage) = true) m ->
  forall mode,
    Forall well_formed
      (snd (encode_loop (letters_of codepage) (figures_of codepage) m (mode, []))).
Proof.
  intros H. induction 1 as [| u m Hu _ IH]; intros mode; [constructor |].
  rewrite encode_loop_cons.
  pose proof (encode_step_well_formed codepage mode u H Hu) as S1.
  destruct (encode_step (letters_of codepage) (figures_of codepage) (mode, []) u)
    as [m1 r1].
  rewrite encode_loop_acc. cbn [snd] in *.
  apply Forall_app. split; [exact S1 | apply IH].
Qed.

(** X5: When every character of the uppercased message is in one of the two
    tables, every code the encoder returns is one of the 32 patterns. *)
Theorem encode_returns_patterns (s codepage : str) (letters_mode : bool) :
  In codepage (keys CODEPAGES) ->
  Forall (fun u => in_values [u] (letters_of codepage)
                   || in_values [u] (figures_of codepage) = true) (upper s) ->
  exists codes,
    ita2_encode s codepage letters_mode = Ok codes /\
    Forall well_formed codes.
Proof.
  intros H Hs. eexists. split.
  - rewrite (ita2_encode_known _ _ _ H), encode_loop_acc. reflexivity.
  - cbn [snd app]. constructor; [apply shift_code_well_formed |].
    apply (encode_loop_well_formed _ _ H Hs).
Qed.

Lemma encode_returns_patterns_witness :
  exists codes,
    ita2_encode (py "Call 911") (py "ita2us") true = Ok codes /\
    Forall well_formed codes.
Proof.
  apply (encode_returns_patterns (py "Call 911") (py "ita2us") true).
  - simpl. right. left. reflexivity.
  - vm_compute. repeat constructor.
Defined.

Lemma encode_keeps_empty_code (codepage : str) (s : str) (u : char)
    (letters_mode : bool) :
  In codepage (keys CODEPAGES) ->
  In u (upper s) ->
  in_values [u] (letters_of codepage) = false ->
  in_values [u] (figures_of codepage) = false ->
  exists codes,
    ita2_encode s codepage letters_mode = Ok codes /\ In [] codes.
Proof.
  intros H Hu HL HF.
  destruct (in_split _ _ Hu) as [m1 [m2 E]].
  eexists. split; [rewrite (ita2_encode_known _ _ _ H); reflexivity |].
  rewrite E, encode_loop_app, encode_loop_cons.
  destruct (encode_loop (letters_of codepage) (figures_of codepage) m1
              (letters_mode, [shift_code letters_mode])) as [mode1 before].
  rewrite (encode_step_unknown _ _ _ _ _ HL HF), encode_loop_acc.
  cbn [snd]. apply in_or_app. left. apply in_or_app. right.
  right. left. reflexivity.
Qed.

(** X6: A message with a character of neither table cannot be read back: the
    encoder returns codes, the empty string among them, and the decoder
    raises [KeyError] on them, in whichever mode it starts. *)
Theorem unknown_character_breaks_decoding (s codepage : str) (u : char)
    (letters_mode decoder_mode : bool) :
  In codepage (keys CODEPAGES) ->
  In u (upper s) ->
  in_values [u] (letters_of codepage) = false ->
  in_values [u] (figures_of codepage) = false ->
  exists codes,
    ita2_encode s codepage letters_mode = Ok codes /\
    In [] codes /\
    ita2_decode codes codepage decoder_mode = Raise KeyError.
Proof.
  intros H Hu HL HF.
  destruct (encode_keeps_empty_code codepage s u letters_mode H Hu HL HF)
    as [codes [E Hin]].
  exists codes. split; [exact E |]. split; [exact Hin |].
  rewrite (ita2_decode_known _ _ _ H).
  rewrite (decode_loop_not_key _ _ _ [] Hin); [reflexivity |].
  intros K. apply (keys_have_six_characters codepage [] H) in K.
  discriminate.
Qed.

Lemma unknown_character_breaks_decoding_witness :
  exists codes,
    ita2_encode (py "a@b") (py "ita2std") true = Ok codes /\
    In [] codes /\
    ita2_decode codes (py "ita2std") true = Raise KeyError.
Proof.
  apply (unknown_character_breaks_decoding (py "a@b") (py "ita2std") 64%N
           true true).
  - simpl. left. reflexivity.
  - vm_compute. right. left. reflexivity.
  - vm_compute. reflexivity.
  - vm_compute. reflexivity.
Defined.

(** * Further properties of the decoder *)

Lemma decode_step_shape_ok (codepage : str) (mode : bool) (code : str) :
  In codepage (keys CODEPAGES) ->
  well_formed code ->
  decode_step_shape (letters_of codepage) (figures_of codepage) mode code
  = true.
Proof.
  intros H Hw.
  assert (A : forallb (fun k =>
                decode_step_shape (letters_of codepage) (figures_of codepage)
                  true k
                && decode_step_shape (letters_of codepage) (figures_of codepage)
                     false k) (keys ita2_letters) = true)
    by (each_codepage H; vm_compute; reflexivity).
  rewrite forallb_forall in A. specialize (A _ Hw).
  apply andb_true_iff in A. destruct mode; apply A.
Qed.

(** One iteration of the decoder on a key of the tables. *)
Lemma decode_step_key (codepage : str) (mode : bool) (text code : str) :
  In codepage (keys CODEPAGES) ->
  well_formed code ->
  exists (mode' : bool) (t : str),
    decode_step (letters_of codepage) (figures_of codepage) (mode, text) code
    = Ok (mode', text ++ t) /\
    (is_shift code = true -> t = [] /\ mode' = str_eqb code LTRS) /\
    (is_shift code = false ->
       mode' = mode /\ List.length t = 1 /\ t <> py "f" /\ t <> py "l" /\
       dict_get (table_of codepage mode) code = Ok t).
Proof.
  intros H Hw.
  pose proof (decode_step_shape_ok codepage mode code H Hw) as S.
  unfold decode_step_shape in S.
  rewrite decode_step_acc.
  destruct (decode_step (letters_of codepage) (figures_of codepage)
              (mode, []) code) as [[mode' t] | e]; [| discriminate].
  exists mode', t. split; [reflexivity |].
  unfold is_shift.
  destruct (str_eqb code LTRS) eqn:EL.
  - apply andb_true_iff in S. destruct S as [S1 S2].
    apply Bool.eqb_prop in S1. apply str_eqb_eq in S2.
    split; [intros _; split; assumption | discriminate].
  - destruct (str_eqb code FIGS) eqn:EF.
    + apply andb_true_iff in S. destruct S as [S1 S2].
      apply Bool.eqb_prop in S1. apply str_eqb_eq in S2.
      split; [intros _; split; assumption | discriminate].
    + split; [discriminate | intros _].
      repeat (apply andb_true_iff in S; destruct S as [S ?]).
      apply Bool.eqb_prop in S.
      repeat match goal with
             | K : negb _ = true |- _ => apply negb_true_iff in K;
                                         apply str_eqb_neq in K
             | K : Nat.eqb _ _ = true |- _ => apply Nat.eqb_eq in K
             end.
      repeat split; try assumption.
      unfold table_of, letters_of, figures_of in *.
      destruct mode;
        match goal with
        | K : match ?g with Ok _ => _ | Raise _ => _ end = true |- _ =>
            destruct g as [v | e]; [| discriminate];
            apply str_eqb_eq in K; subst; reflexivity
        end.
Qed.

(** The decoder's loop on keys of the tables: it does not raise, adds one
    character for every code that is not a shift code, and never adds a
    placeholder. *)
Lemma decode_loop_keys (codepage : str) (message : list str) :
  In codepage (keys CODEPAGES) ->
  Forall well_formed message ->
  forall (mode : bool) (text : str),
  exists (mode' : bool) (t : str),
    for_each (decode_step (letters_of codepage) (figures_of codepage))
      message (mode, text) = Ok (mode', text ++ t) /\
    List.length t
    = List.length (filter (fun code => negb (is_shift code)) message) /\
    ~ In 102%N t /\ ~ In 108%N t.
Proof.
  intros H. induction 1 as [| code message Hw _ IH]; intros mode text.
  - exists mode, []. cbn. rewrite app_nil_r. repeat split; intros [].
  - rewrite decode_loop_cons.
    destruct (decode_step_key codepage mode text code H Hw)
      as [m1 [t1 [E [Hs Hc]]]].
    rewrite E. cbn [bind].
    destruct (IH m1 (text ++ t1)) as [m2 [t2 [E2 [L2 [F2 G2]]]]].
    exists m2, (t1 ++ t2). rewrite E2, app_assoc.
    split; [reflexivity |]. cbn [filter].
    destruct (is_shift code) eqn:S; cbn [negb].
    + destruct (Hs eq_refl) as [-> _]. cbn [app]. repeat split; assumption.
    + destruct (Hc eq_refl) as [_ [L1 [N1 [N2 _]]]].
      destruct t1 as [| c [| ? ?]]; try discriminate.
      cbn [app List.length]. rewrite L2.
      repeat split; try reflexivity; intros [K | K];
        try contradiction; subst c; [apply N1 | apply N2]; reflexivity.
Qed.

Lemma well_formed_dec (code : str) : {well_formed code} + {~ well_formed code}.
Proof. apply in_dec. apply list_eq_dec. apply N.eq_dec. Qed.

Lemma decode_ok_well_formed (codepage : str) (message : list str)
    (mode : bool) (text : str) :
  In codepage (keys CODEPAGES) ->
  ita2_decode message codepage mode = Ok text ->
  Forall well_formed message.
Proof.
  intros H E.
  destruct (Forall_Exists_dec well_formed well_formed_dec message)
    as [F | X]; [exact F | exfalso].
  apply Exists_exists in X. destruct X as [code [Hin Hbad]].
  rewrite (ita2_decode_known _ _ _ H) in E.
  rewrite (decode_loop_not_key _ _ _ _ Hin) in E; [discriminate |].
  change (letters_of codepage) with (table_of codepage true).
  rewrite (table_keys codepage true H). exact Hbad.
Qed.

(** X7: The decoder returns a string exactly when every code of the sequence
    is one of the 32 patterns. *)
Theorem decode_succeeds_on_patterns_only (message : list str)
    (codepage : str) (letters_mode : bool) :
  In codepage (keys CODEPAGES) ->
  (Forall well_formed message <->
   exists text, ita2_decode message codepage letters_mode = Ok text).
Proof.
  intros H. split.
  - intros F.
    destruct (decode_loop_keys codepage message H F letters_mode [])
      as [m [t [E _]]].
    exists t. rewrite (ita2_decode_known _ _ _ H), E. reflexivity.
  - intros [text E]. exact (decode_ok_well_formed _ _ _ _ H E).
Qed.

Lemma decode_succeeds_on_patterns_only_witness :
  exists text,
    ita2_decode [py "000x11"; FIGS; py "101x11"] (py "ita2std") true = Ok text.
Proof.
  apply (decode_succeeds_on_patterns_only [py "000x11"; FIGS; py "101x11"]
           (py "ita2std") true).
  - simpl. left. reflexivity.
  - repeat constructor; vm_compute; tauto.
Defined.

(** X8: The decoded string has one character for every code that is not a
    shift code: shift codes add nothing and no code adds more than one
    character. *)
Theorem decode_length (message : list str) (codepage : str)
    (letters_mode : bool) (text : str) :
  In codepage (keys CODEPAGES) ->
  ita2_decode message codepage letters_mode = Ok text ->
  List.length text
  = List.length (filter (fun code => negb (is_shift code)) message) /\
  List.length text <= List.length message.
Proof.
  intros H E.
  pose proof (decode_ok_well_formed _ _ _ _ H E) as F.
  destruct (decode_loop_keys codepage message H F letters_mode [])
    as [m [t [E2 [L _]]]].
  rewrite (ita2_decode_known _ _ _ H), E2 in E. cbn in E.
  injection E as <-. split; [exact L |].
  rewrite L. apply filter_length_le.
Qed.

Lemma decode_length_witness :
  List.length (py "A1")
  = List.length (filter (fun code => negb (is_shift code))
                   [LTRS; py "000x11"; FIGS; py "101x11"]) /\
  List.length (py "A1") <= List.length [LTRS; py "000x11"; FIGS; py "101x11"].
Proof.
  apply (decode_length [LTRS; py "000x11"; FIGS; py "101x11"] (py "ita2std")
           false (py "A1")).
  - simpl. left. reflexivity.
  - vm_compute. reflexivity.
Defined.

(** X9: The decoder never returns the placeholders: there is no [f] and no [l]
    in a decoded string. *)
Theorem decode_never_returns_placeholder (message : list str)
    (codepage : str) (letters_mode : bool) (text : str) :
  In codepage (keys CODEPAGES) ->
  ita2_decode message codepage letters_mode = Ok text ->
  ~ In 102%N text /\ ~ In 108%N text.
Proof.
  intros H E.
  pose proof (decode_ok_well_formed _ _ _ _ H E) as F.
  destruct (decode_loop_keys codepage message H F letters_mode [])
    as [m [t [E2 [_ N]]]].
  rewrite (ita2_decode_known _ _ _ H), E2 in E. cbn in E.
  injection E as <-. exact N.
Qed.

Lemma decode_never_returns_placeholder_witness :
  ita2_decode [py "110x11"; py "011x01"; py "111x11"; py "100x10"]
    (py "ita2std") true = Ok (py "!L") /\
  ~ In 102%N (py "!L") /\ ~ In 108%N (py "!L").
Proof.
  assert (E : ita2_decode [py "110x11"; py "011x01"; py "111x11"; py "100x10"]
                (py "ita2std") true = Ok (py "!L"))
    by (vm_compute; reflexivity).
  split; [exact E |].
  apply (decode_never_returns_placeholder
           [py "110x11"; py "011x01"; py "111x11"; py "100x10"]
           (py "ita2std") true (py "!L")).
  - simpl. left. reflexivity.
  - exact E.
Defined.

Lemma decode_shift_code (codepage : str) (mode shift : bool) (text : str) :
  In codepage (keys CODEPAGES) ->
  decode_step (letters_of codepage) (figures_of codepage)
    (mode, text) (shift_code shift)
  = Ok (shift, text).
Proof.
  intros H. each_codepage H; destruct mode, shift; reflexivity.
Qed.

(** X10: The priming code makes the decoder's initial mode immaterial: what the
    encoder returns in one mode decodes to the uppercased message in either
    initial mode of the decoder. *)
Theorem round_trip_in_any_decoder_mode (s codepage : str)
    (letters_mode : bool) :
  In codepage (keys CODEPAGES) ->
  Forall (fun u => in_values [u] (letters_of codepage)
                   || in_values [u] (figures_of codepage) = true) (upper s) ->
  exists codes,
    ita2_encode s codepage letters_mode = Ok codes /\
    forall decoder_mode,
      ita2_decode codes codepage decoder_mode = Ok (upper s).
Proof.
  intros H Hs.
  exists (shift_code letters_mode
          :: snd (encode_loop (letters_of codepage) (figures_of codepage)
                    (upper s) (letters_mode, []))).
  split.
  - rewrite (ita2_encode_known _ _ _ H), encode_loop_acc. reflexivity.
  - intros decoder_mode.
    rewrite (ita2_decode_known _ _ _ H), decode_loop_cons.
    rewrite (decode_shift_code _ _ _ _ H). cbn [bind].
    rewrite (decode_encode_loop _ _ (codepage_round_trip _ H) _ Hs
               (upper_not_lower s)).
    reflexivity.
Qed.

Lemma round_trip_in_any_decoder_mode_witness :
  exists codes,
    ita2_encode (py "I think") (py "ita2std") false = Ok codes /\
    forall decoder_mode,
      ita2_decode codes (py "ita2std") decoder_mode = Ok (upper (py "I think")).
Proof.
  apply (round_trip_in_any_decoder_mode (py "I think") (py "ita2std") false).
  - simpl. left. reflexivity.
  - vm_compute. repeat constructor.
Defined.

(** X11: The decoder composes at a shift code: the text of a sequence, then a
    shift code, then a second sequence, is the text of the first followed
    by the text of the second decoded from the mode of the shift code. *)
Theorem decode_concatenation (xs ys : list str) (codepage : str)
    (letters_mode shift : bool) (text1 text2 : str) :
  In codepage (keys CODEPAGES) ->
  ita2_decode xs codepage letters_mode = Ok text1 ->
  ita2_decode ys codepage shift = Ok text2 ->
  ita2_decode (xs ++ shift_code shift :: ys) codepage letters_mode
  = Ok (text1 ++ text2).
Proof.
  intros H E1 E2.
  rewrite (ita2_decode_known xs _ _ H) in E1.
  rewrite (ita2_decode_known ys _ _ H) in E2.
  rewrite (ita2_decode_known _ _ _ H), decode_loop_app.
  destruct (for_each (decode_step (letters_of codepage) (figures_of codepage))
              xs (letters_mode, [])) as [[m1 t1] | e]; [| discriminate].
  cbn in E1. injection E1 as ->. cbn [bind].
  rewrite decode_loop_cons, (decode_shift_code _ _ _ _ H). cbn [bind].
  rewrite decode_loop_acc.
  destruct (for_each (decode_step (letters_of codepage) (figures_of codepage))
              ys (shift, [])) as [[m2 t2] | e]; [| discriminate].
  cbn in E2. injection E2 as ->. reflexivity.
Qed.

Lemma decode_concatenation_witness :
  ita2_decode ([py "000x11"] ++ shift_code false :: [py "101x11"])
    (py "ita2std") true
  = Ok (py "A" ++ py "1").
Proof.
  apply (decode_concatenation [py "000x11"] [py "101x11"] (py "ita2std")
           true false (py "A") (py "1")).
  - simpl. left. reflexivity.
  - vm_compute. reflexivity.
  - vm_compute. reflexivity.
Defined.

(** * The tables as a code *)

(** X12: In each table a character has one code: the reverse lookup [kfind]
    undoes the subscript and the subscript undoes [kfind]. *)
Theorem table_lookups_are_inverse (codepage : str) (mode : bool) :
  In codepage (keys CODEPAGES) ->
  (forall code v,
     dict_get (table_of codepage mode) code = Ok v ->
     kfind (table_of codepage mode) v = code) /\
  (forall v,
     in_values v (table_of codepage mode) = true ->
     dict_get (table_of codepage mode) (kfind (table_of codepage mode) v)
     = Ok v).
Proof.
  intros H.
  assert (A : forallb (fun kv =>
                str_eqb (kfind (table_of codepage mode) (snd kv)) (fst kv)
                && match dict_get (table_of codepage mode) (fst kv) with
                   | Ok v => str_eqb v (snd kv)
                   | Raise _ => false
                   end) (table_of codepage mode) = true)
    by (each_codepage H; destruct mode; vm_compute; reflexivity).
  rewrite forallb_forall in A. split.
  - intros code v E. apply dict_get_In in E. specialize (A _ E).
    apply andb_true_iff in A. destruct A as [A _].
    apply str_eqb_eq in A. exact A.
  - intros v Hv. apply in_values_In in Hv. unfold values in Hv.
    apply in_map_iff in Hv. destruct Hv as [[k w] [Ew Hin]].
    cbn [snd] in Ew. subst w. specialize (A _ Hin). cbn [fst snd] in A.
    apply andb_true_iff in A. destruct A as [A1 A2].
    apply str_eqb_eq in A1. rewrite A1.
    destruct (dict_get (table_of codepage mode) k) as [v' | e];
      [| discriminate].
    apply str_eqb_eq in A2. subst. reflexivity.
Qed.

Lemma table_lookups_are_inverse_witness :
  kfind (table_of (py "ita2us") false) (py "$") = py "010x01" /\
  dict_get (table_of (py "ita2us") false)
    (kfind (table_of (py "ita2us") false) (py "$")) = Ok (py "$").
Proof.
  destruct (table_lookups_are_inverse (py "ita2us") false) as [A B].
  - simpl. right. left. reflexivity.
  - split.
    + apply A. vm_compute. reflexivity.
    + apply B. vm_compute. reflexivity.
Defined.

(** * Further properties of the tape renderer *)

Lemma and_then_status (a b : io) (out : str) :
  snd (and_then a b out)
  = match snd (a out) with
    | None => snd (b (fst (a out)))
    | Some e => Some e
    end.
Proof. unfold and_then. destruct (a out) as [out' [e |]]; reflexivity. Qed.

Lemma for_io_succeeds {X} (body : X -> io) (xs : list X) :
  (forall x, In x xs -> forall out, snd (body x out) = None) ->
  forall out, snd (for_io body xs out) = None.
Proof.
  induction xs as [| x xs IH]; intros Hb out; [reflexivity |].
  cbn [for_io]. rewrite and_then_status, (Hb x (or_introl eq_refl)).
  apply IH. intros y Hy. apply Hb. right. exact Hy.
Qed.

Lemma for_io_stops {X} (body : X -> io) (xs : list X) (x : X) (e : exn) :
  In x xs ->
  (forall out, snd (body x out) = Some e) ->
  (forall y out, snd (body y out) = None \/ snd (body y out) = Some e) ->
  forall out, snd (for_io body xs out) = Some e.
Proof.
  intros Hin Hx Hall.
  induction xs as [| y xs IH]; intros out; [destruct Hin |].
  cbn [for_io]. rewrite and_then_status.
  destruct Hin as [-> | Hin]; [rewrite Hx; reflexivity |].
  destruct (Hall y out) as [E | E]; rewrite E; [apply IH; exact Hin |].
  reflexivity.
Qed.

Lemma draw_cell_status (i : nat) (code_j : str) (out : str) :
  snd (draw_cell i code_j out)
  = if Nat.ltb (5 - i) (List.length code_j) then None else Some IndexError.
Proof.
  unfold draw_cell, subscript.
  destruct (Nat.ltb_spec (5 - i) (List.length code_j)) as [L | L].
  - destruct (nth_error code_j (5 - i)) as [c |] eqn:E.
    + repeat match goal with
             | |- context [if ?b then _ else _] => destruct b
             end; reflexivity.
    + apply nth_error_None in E. lia.
  - apply nth_error_None in L. rewrite L. reflexivity.
Qed.

Lemma draw_row_status (code : list str) (i : nat) (out : str) :
  snd (draw_row code i out)
  = snd (for_io (draw_cell i) code (out ++ py " ")).
Proof.
  unfold draw_row. rewrite and_then_status. cbn [print snd fst].
  rewrite and_then_status, app_nil_r.
  destruct (snd (for_io (draw_cell i) code (out ++ py " "))); reflexivity.
Qed.

Lemma ita2_draw_status (code : list str) (out : str) :
  snd (ita2_draw code out)
  = snd (for_io (draw_row code) (List.seq 0 6)
           (fst (print (str_mul HEAVY_LINE
                          (Z.of_nat (List.length code) * 2 + 2)) LF out))).
Proof.
  unfold ita2_draw. cbv zeta. rewrite and_then_status.
  cbn [print snd]. rewrite and_then_status.
  match goal with
  | |- match ?s with None => _ | Some _ => _ end = _ => destruct s
  end; reflexivity.
Qed.

Lemma draw_stops_on_short_code (code : list str) (code_j : str) (out : str) :
  In code_j code -> List.length code_j < 6 ->
  snd (ita2_draw code out) = Some IndexError.
Proof.
  intros Hin Hshort. rewrite ita2_draw_status.
  apply (for_io_stops (draw_row code) (List.seq 0 6) 0 IndexError).
  - cbn. left. reflexivity.
  - intros o. rewrite draw_row_status.
    apply (for_io_stops (draw_cell 0) code code_j IndexError Hin).
    + intros o'. rewrite draw_cell_status.
      destruct (Nat.ltb_spec (5 - 0) (List.length code_j)); [lia | reflexivity].
    + intros y o'. rewrite draw_cell_status.
      destruct (Nat.ltb (5 - 0) (List.length y)); [left | right]; reflexivity.
  - intros i o. rewrite draw_row_status.
    assert (G : forall xs o', snd (for_io (draw_cell i) xs o') = None
                              \/ snd (for_io (draw_cell i) xs o')
                                 = Some IndexError).
    { induction xs as [| y xs IH]; intros o'; [left; reflexivity |].
      cbn [for_io]. rewrite and_then_status, draw_cell_status.
      destruct (Nat.ltb (5 - i) (List.length y)); [apply IH | right; reflexivity]. }
    apply G.
Qed.

Lemma draw_runs_on_long_codes (code : list str) (out : str) :
  Forall (fun code_j => 6 <= List.length code_j) code ->
  snd (ita2_draw code out) = None.
Proof.
  intros Hlong. rewrite ita2_draw_status.
  apply for_io_succeeds. intros i Hi o. apply in_seq in Hi.
  rewrite draw_row_status. apply for_io_succeeds. intros y Hy o'.
  rewrite Forall_forall in Hlong. specialize (Hlong y Hy).
  rewrite draw_cell_status.
  destruct (Nat.ltb_spec (5 - i) (List.length y)); [reflexivity | lia].
Qed.

(** X13: [ita2_draw] completes exactly when every code has at least six
    characters, whatever they are; a shorter code stops it with
    [IndexError], the subscript [code[j][5]] of the first row. *)
Theorem draw_raises_on_short_codes_only (code : list str) (out : str) :
  (snd (ita2_draw code out) = None <->
   Forall (fun code_j => 6 <= List.length code_j) code) /\
  (snd (ita2_draw code out) = Some IndexError <->
   Exists (fun code_j => List.length code_j < 6) code).
Proof.
  assert (D : {Forall (fun code_j => 6 <= List.length code_j) code}
              + {Exists (fun code_j => List.length code_j < 6) code}).
  { destruct (Forall_Exists_dec (fun code_j => 6 <= List.length code_j)
                (fun code_j => le_dec 6 (List.length code_j)) code) as [F | X].
    - left. exact F.
    - right. apply Exists_exists in X. destruct X as [c [Hc Hn]].
      apply Exists_exists. exists c. split; [exact Hc | lia]. }
  assert (short : Exists (fun code_j => List.length code_j < 6) code ->
                  snd (ita2_draw code out) = Some IndexError).
  { intros X. apply Exists_exists in X. destruct X as [c [Hc Hs]].
    exact (draw_stops_on_short_code code c out Hc Hs). }
  pose proof (draw_runs_on_long_codes code out) as long.
  split; split; try assumption.
  - intros E. destruct D as [F | X]; [exact F |].
    rewrite (short X) in E. discriminate.
  - intros E. destruct D as [F | X]; [| exact X].
    rewrite (long F) in E. discriminate.
Qed.

Lemma ita2_draw_well_formed (code : list str) (out : str) :
  Forall well_formed code ->
  ita2_draw code out
  = (out ++ tape_border code
         ++ tape_row code 5 ++ tape_row code 4 ++ tape_row code 3
         ++ tape_row code 2 ++ tape_row code 1 ++ tape_row code 0
         ++ tape_border code, None).
Proof.
  intros Hw. unfold ita2_draw. cbv zeta.
  rewrite (str_mul_char 9473%N (2 * List.length code + 2)) by lia.
  unfold and_then at 1. unfold print at 1.
  unfold and_then at 1. cbn [List.seq for_io].
  unfold and_then.
  rewrite !draw_row_well_formed by (lia || exact Hw).
  cbn [skip Nat.sub]. unfold print, tape_border.
  rewrite <- !app_assoc. reflexivity.
Qed.

(** X14: What the encoder returns for a message of table characters can be
    drawn, with or without its priming code: [ita2_draw] raises nothing and
    prints the two borders and the six rows. *)
Theorem draw_after_encode (s codepage : str) (letters_mode : bool) :
  In codepage (keys CODEPAGES) ->
  Forall (fun u => in_values [u] (letters_of codepage)
                   || in_values [u] (figures_of codepage) = true) (upper s) ->
  exists codes,
    ita2_encode s codepage letters_mode = Ok codes /\
    forall tape out,
      tape = codes \/ tape = tl codes ->
      ita2_draw tape out
      = (out ++ tape_border tape
             ++ tape_row tape 5 ++ tape_row tape 4 ++ tape_row tape 3
             ++ tape_row tape 2 ++ tape_row tape 1 ++ tape_row tape 0
             ++ tape_border tape, None).
Proof.
  intros H Hs.
  exists (shift_code letters_mode
          :: snd (encode_loop (letters_of codepage) (figures_of codepage)
                    (upper s) (letters_mode, []))).
  split.
  - rewrite (ita2_encode_known _ _ _ H), encode_loop_acc. reflexivity.
  - pose proof (encode_loop_well_formed _ _ H Hs letters_mode) as W.
    intros tape out [-> | ->]; apply ita2_draw_well_formed.
    + constructor; [apply shift_code_well_formed | exact W].
    + exact W.
Qed.

Lemma draw_after_encode_witness :
  exists codes,
    ita2_encode (py "e") (py "ita2std") true = Ok codes /\
    ita2_draw (tl codes) []
    = ([9473; 9473; 9473; 9473; 10;
        32; 11044; 32; 32; 10;
        32; 32; 32; 32; 10;
        32; 9679; 32; 32; 10;
        32; 32; 32; 32; 10;
        32; 32; 32; 32; 10;
        32; 32; 32; 32; 10;
        9473; 9473; 9473; 9473; 10]%N, None).
Proof.
  destruct (draw_after_encode (py "e") (py "ita2std") true)
    as [codes [E D]].
  - simpl. left. reflexivity.
  - vm_compute. repeat constructor.
  - exists codes. split; [exact E |].
    rewrite (D (tl codes) [] (or_intror eq_refl)).
    vm_compute in E. injection E as <-. vm_compute. reflexivity.
Defined.

(** X15: The codes of a message with a character of neither table cannot be
    drawn: the empty string among them stops [ita2_draw] with
    [IndexError]. *)
Theorem unknown_character_breaks_drawing (s codepage : str) (u : char)
    (letters_mode : bool) (out : str) :
  In codepage (keys CODEPAGES) ->
  In u (upper s) ->
  in_values [u] (letters_of codepage) = false ->
  in_values [u] (figures_of codepage) = false ->
  exists codes,
    ita2_encode s codepage letters_mode = Ok codes /\
    snd (ita2_draw codes out) = Some IndexError.
Proof.
  intros H Hu HL HF.
  destruct (encode_keeps_empty_code codepage s u letters_mode H Hu HL HF)
    as [codes [E Hin]].
  exists codes. split; [exact E |].
  apply (draw_stops_on_short_code codes [] out Hin). cbn. lia.
Qed.

Lemma unknown_character_breaks_drawing_witness :
  exists codes,
    ita2_encode (py "a@b") (py "ita2std") true = Ok codes /\
    snd (ita2_draw codes []) = Some IndexError.
Proof.
  apply (unknown_character_breaks_drawing (py "a@b") (py "ita2std") 64%N
           true []).
  - simpl. left. reflexivity.
  - vm_compute. right. left. reflexivity.
  - vm_compute. reflexivity.
  - vm_compute. reflexivity.
Defined.

(** * The demonstration of ita2.py *)

(** X16: [ita2_test] returns [True] and raises nothing: both messages are read
    back as they were written, although they are encoded from figures mode
    and decoded from letters mode, and both tapes are drawn in full, twenty
    lines with their titles. *)
Theorem ita2_test_passes (out : str) :
  snd (ita2_test out) = Ok true /\
  List.length (filter (N.eqb 10) (fst (ita2_test []))) = 20.
Proof. split; vm_compute; reflexivity. Qed.

(** * Further properties of leftpad *)

(** The value of [leftpad] when [fill], or [str(fill)], starts with [c]. *)
Lemma leftpad_value (string : str) (length : Z) (fill : fill_value)
    (c : char) :
  nth_error (fill_text fill) 0 = Some c ->
  leftpad string length fill
  = Ok (repeat c (pad_count string length) ++ string).
Proof.
  intros E. unfold leftpad, pad_count. cbv zeta.
  assert (P : ((if (length <=? Z.of_nat (List.length string))%Z
                then Z.of_nat (List.length string) else length)
               - Z.of_nat (List.length string))%Z
              = Z.of_nat (Z.to_nat
                            (Z.max length (Z.of_nat (List.length string))
                             - Z.of_nat (List.length string)))).
  { destruct (Z.leb_spec length (Z.of_nat (List.length string))); lia. }
  destruct fill as [s | n |]; cbn [fill_text] in E.
  - unfold subscript. rewrite E. cbn [bind].
    rewrite (str_mul_char c _ _ P). reflexivity.
  - unfold subscript. rewrite E. cbn [bind].
    rewrite (str_mul_char c _ _ P). reflexivity.
  - discriminate.
Qed.

Lemma leftpad_ok_first (string : str) (length : Z) (fill : fill_value)
    (padded : str) :
  leftpad string length fill = Ok padded ->
  exists c, nth_error (fill_text fill) 0 = Some c.
Proof.
  unfold leftpad. cbv zeta.
  destruct fill as [s | n |]; cbn [fill_text]; unfold subscript.
  - destruct (nth_error s 0) as [c |]; [eexists; reflexivity | discriminate].
  - destruct (nth_error (str_of_int n) 0) as [c |];
      [eexists; reflexivity | discriminate].
  - discriminate.
Qed.

(** X17: [leftpad] raises exactly on a [fill] it cannot use: [IndexError] on the
    empty string, even when there is nothing to pad, and [TypeError] on a
    value that is neither [str] nor [int]. *)
Theorem leftpad_raises_on_unusable_fill (string : str) (length : Z)
    (fill : fill_value) :
  leftpad string length (FillStr []) = Raise IndexError /\
  leftpad string length FillOther = Raise TypeError /\
  (usable_fill fill <-> exists padded, leftpad string length fill = Ok padded).
Proof.
  split; [reflexivity |]. split; [reflexivity |]. split.
  - intros U.
    assert (first : exists c, nth_error (fill_text fill) 0 = Some c).
    { destruct fill as [s | n |]; cbn in *.
      - destruct s as [| c rest]; [contradiction | eexists; reflexivity].
      - destruct (str_of_int_first n) as [c [rest ->]]. eexists. reflexivity.
      - contradiction. }
    destruct first as [c E]. eexists. apply (leftpad_value _ _ _ c E).
  - intros [padded E]. destruct (leftpad_ok_first _ _ _ _ E) as [c F].
    destruct fill as [s | n |]; cbn in *.
    + destruct s; [discriminate | discriminate].
    + exact I.
    + discriminate.
Qed.

(** X18: Padding twice with the same [fill] is padding once to the greater
    length; so padding again to the same length changes nothing. *)
Theorem leftpad_twice (string : str) (length1 length2 : Z)
    (fill : fill_value) (padded : str) :
  leftpad string length1 fill = Ok padded ->
  leftpad padded length2 fill
  = leftpad string (Z.max length1 length2) fill /\
  leftpad padded length1 fill = Ok padded.
Proof.
  intros E. destruct (leftpad_ok_first _ _ _ _ E) as [c F].
  rewrite (leftpad_value _ _ _ c F) in E. injection E as <-.
  assert (L : Z.of_nat (List.length (repeat c (pad_count string length1) ++ string))
              = Z.max length1 (Z.of_nat (List.length string))).
  { rewrite length_app, repeat_length. unfold pad_count. lia. }
  assert (G : forall length,
             repeat c (pad_count (repeat c (pad_count string length1) ++ string)
                         length)
               ++ repeat c (pad_count string length1) ++ string
             = repeat c (pad_count string (Z.max length1 length)) ++ string).
  { intros length. rewrite app_assoc, <- repeat_app. f_equal. f_equal.
    unfold pad_count at 1 3. rewrite L. unfold pad_count. lia. }
  rewrite !(leftpad_value _ _ _ c F). split.
  - rewrite G. reflexivity.
  - rewrite G, Z.max_id. reflexivity.
Qed.

Lemma leftpad_twice_witness :
  leftpad (py "__foo") 7 (FillStr (py "_"))
  = leftpad (py "foo") (Z.max 5 7) (FillStr (py "_")) /\
  leftpad (py "__foo") 5 (FillStr (py "_")) = Ok (py "__foo").
Proof.
  apply (leftpad_twice (py "foo") 5 7 (FillStr (py "_")) (py "__foo")).
  vm_compute. reflexivity.
Defined.

Lemma string_of_uint_first_digit (d : Decimal.uint) :
  d <> Decimal.Nil ->
  exists c rest,
    py (NilEmpty.string_of_uint d) = c :: rest /\ (48 <= c <= 57)%N.
Proof.
  destruct d; intros H; try contradiction;
    cbn; eexists; eexists; (split; [reflexivity | lia]).
Qed.

(** X19: Only the first character of [fill] counts: a string pads like its first
    character alone, a negative integer like ["-"], and any other integer
    like one decimal digit. *)
Theorem leftpad_uses_first_character (string : str) (length : Z) :
  (forall c rest,
     leftpad string length (FillStr (c :: rest))
     = leftpad string length (FillStr [c])) /\
  (forall n, (n < 0)%Z ->
     leftpad string length (FillInt n)
     = leftpad string length (FillStr (py "-"))) /\
  (forall n, (0 <= n)%Z ->
     exists d, (48 <= d <= 57)%N /\
       leftpad string length (FillInt n)
       = leftpad string length (FillStr [d])).
Proof.
  split; [reflexivity |]. split.
  - intros n Hn.
    rewrite (leftpad_value _ _ (FillInt n) 45%N (str_of_int_negative n Hn)).
    rewrite (leftpad_value _ _ (FillStr (py "-")) 45%N eq_refl). reflexivity.
  - intros n Hn.
    assert (first : exists c rest,
               str_of_int n = c :: rest /\ (48 <= c <= 57)%N).
    { unfold str_of_int. destruct n as [| p | p]; [| | lia].
      - exists 48%N, []. split; [reflexivity | lia].
      - apply string_of_uint_first_digit. apply Unsigned.to_uint_nonnil. }
    destruct first as [d [rest [E B]]]. exists d. split; [exact B |].
    rewrite (leftpad_value _ _ (FillInt n) d);
      [| cbn [fill_text]; rewrite E; reflexivity].
    rewrite (leftpad_value _ _ (FillStr [d]) d eq_refl). reflexivity.
Qed.
